(** * Word-collection reporting endpoints: a shallow embedding

    This development embeds the two request handlers of
    [routers/word_collection.py] ([get_rank] and [get_word_tags]) and
    proves properties of their aggregation pipelines.

    Python dictionaries keep insertion order and both handlers rely on
    it ([content_data.values()], [mention_counts.items()]), so a
    dictionary is an association list with unique keys, new keys
    appended at the end.  Python integers are unbounded: [Z]. *)

From Stdlib Require Import Ascii String.
From Stdlib Require Import List ZArith Lia Bool.
From Stdlib Require Import Sorted Permutation.
Import ListNotations.

Local Open Scope Z_scope.

(** ** Insertion-ordered dictionaries with string keys *)

Section Dict.
Context {V : Type}.

Definition dict := list (string * V).

Fixpoint dict_get (k : string) (d : dict) : option V :=
  match d with
  | [] => None
  | (k', v) :: d' => if String.eqb k k' then Some v else dict_get k d'
  end.

(** [k in d] *)
Definition dict_mem (k : string) (d : dict) : bool :=
  match dict_get k d with Some _ => true | None => false end.

(** [d[k] = v]: an existing key keeps its position, a new key goes last. *)
Fixpoint dict_set (k : string) (v : V) (d : dict) : dict :=
  match d with
  | [] => [(k, v)]
  | (k', v') :: d' =>
      if String.eqb k k' then (k', v) :: d' else (k', v') :: dict_set k v d'
  end.

Definition dict_keys (d : dict) : list string := map fst d.
Definition dict_values (d : dict) : list V := map snd d.
End Dict.

Arguments dict V : clear implicits.

(** ** Timestamps

    A [datetime] carries the fields of Python's naive [datetime] object. *)

Record datetime := mkdatetime {
  year : nat; month : nat; day : nat;
  hour : nat; minute : nat; second : nat; microsecond : nat
}.

Definition digit (n : nat) : ascii := ascii_of_nat (48 + n mod 10).

Definition pad2 (n : nat) : string :=
  String (digit (n / 10)) (String (digit n) EmptyString).

(** [%Y] as the C library underneath prints it: the year in decimal
    without padding, hence with four digits from the year 1000 on.
    (Python's years are 1 to 9999.) *)
Definition year_digits (n : nat) : string :=
  if (n <? 10)%nat then String (digit n) EmptyString
  else if (n <? 100)%nat then pad2 n
  else if (n <? 1000)%nat then String (digit (n / 100)) (pad2 n)
  else String (digit (n / 1000)) (String (digit (n / 100)) (pad2 n)).

(** [t.strftime("%Y-%m-%d %H:%M:%S")]: the other fields have two
    digits; the microseconds are not printed. *)
Definition strftime (t : datetime) : string :=
  (year_digits (year t) ++ "-" ++ pad2 (month t) ++ "-" ++ pad2 (day t) ++ " "
   ++ pad2 (hour t) ++ ":" ++ pad2 (minute t) ++ ":" ++ pad2 (second t))%string.

(** ** Rows of the record source and the word entries built from them *)

(** One row as unpacked by
    [timestamp, incorrect_word, correct_word, content_tag, occurrence_count, rank = record]. *)
Record Row := mkRow {
  row_timestamp : datetime;
  row_incorrect_word : string;
  row_correct_word : string;
  row_content_tag : string;
  row_occurrence_count : Z;
  row_rank : Z
}.

(** The dictionary appended to a tag's list in [get_rank]; its four keys
    are fixed, so it is a record. *)
Record Word := mkWord {
  incorrect_word : string;
  correct_word : string;
  occurrence_count : Z;
  rank : Z
}.

Definition word_of (record : Row) : Word :=
  mkWord (row_incorrect_word record) (row_correct_word record)
         (row_occurrence_count record) (row_rank record).

(** ** [sorted]: a stable sort

    Python's [sorted] and [list.sort] are stable, also with
    [reverse=True]: elements that compare equal keep their original
    order.  [le x y] says that [x] may stand before [y]. *)

Section StableSort.
Context {A : Type} (le : A -> A -> bool).

Fixpoint insert_sorted (x : A) (l : list A) : list A :=
  match l with
  | [] => [x]
  | y :: l' => if le x y then x :: l else y :: insert_sorted x l'
  end.

Fixpoint stable_sort (l : list A) : list A :=
  match l with
  | [] => []
  | x :: l' => insert_sorted x (stable_sort l')
  end.
End StableSort.

(** [sorted(ws, key=lambda x: x["occurrence_count"], reverse=True)] *)
Definition count_ge (x y : Word) : bool :=
  occurrence_count y <=? occurrence_count x.

Definition sort_by_count_desc (ws : list Word) : list Word :=
  stable_sort count_ge ws.

(** [sorted(processed_data.items())]: tuples are compared on the key
    first; the keys of a dictionary are pairwise different, so the
    comparison never reaches the second component. *)
Definition key_le {V : Type} (x y : string * V) : bool :=
  String.leb (fst x) (fst y).

Definition sorted_items {V : Type} (d : dict V) : list (string * V) :=
  stable_sort key_le d.

(** ** The ranking pipeline of [get_rank] *)

(** The first loop: group the rows by formatted timestamp, then by tag. *)
Definition add_record (processed_data : dict (dict (list Word))) (record : Row)
  : dict (dict (list Word)) :=
  let timestamp_str := strftime (row_timestamp record) in
  let content_tag := row_content_tag record in
  let processed_data :=
    if dict_mem timestamp_str processed_data then processed_data
    else dict_set timestamp_str [] processed_data in
  let content_data :=
    match dict_get timestamp_str processed_data with
    | Some cd => cd
    | None => []
    end in
  let content_data :=
    if dict_mem content_tag content_data then content_data
    else dict_set content_tag [] content_data in
  let words :=
    match dict_get content_tag content_data with
    | Some ws => ws
    | None => []
    end in
  dict_set timestamp_str
    (dict_set content_tag (words ++ [word_of record]) content_data)
    processed_data.

Definition group_records (raw_data : list Row) : dict (dict (list Word)) :=
  fold_left add_record raw_data [].

(** The de-duplication loop.  [unique_ranks] is the set of ranks seen so
    far; the length test follows the membership test in every round, so
    the loop stops right after the tenth word is appended. *)
Fixpoint dedup_loop (words : list Word) (unique_ranks : list Z)
    (result_words : list Word) : list Word :=
  match words with
  | [] => result_words
  | word :: rest =>
      let '(unique_ranks, result_words) :=
        if existsb (Z.eqb (rank word)) unique_ranks
        then (unique_ranks, result_words)
        else (rank word :: unique_ranks, result_words ++ [word]) in
      if (10 <=? length result_words)%nat then result_words
      else dedup_loop rest unique_ranks result_words
  end.

Definition top_words (sorted_words : list Word) : list Word :=
  dedup_loop sorted_words [] [].

(** A value stored in an output dictionary of [get_rank]. *)
Inductive value :=
| VStr (s : string)
| VWords (ws : list Word).

(** [if tag:] holds for a non-empty string only. *)
Definition truthy (s : option string) : option string :=
  match s with
  | Some (String c s') => Some (String c s')
  | _ => None
  end.

(** The words a bucket contributes and the key they are stored under:
    the requested tag's list, or all lists of the bucket concatenated in
    the insertion order of the tags. *)
Definition selected_words (tag : option string) (content_data : dict (list Word))
  : option (string * list Word) :=
  match truthy tag with
  | Some t =>
      match dict_get t content_data with
      | Some ws => Some (t, ws)
      | None => None
      end
  | None => Some ("total"%string, concat (dict_values content_data))
  end.

(** The body of the second loop; [None] is the [continue].  Both
    branches of [if tag:] sort their words by descending count, run the
    same de-duplication loop and store the result under their key. *)
Definition bucket_entry (tag : option string)
    (item : string * dict (list Word)) : option (dict value) :=
  let '(timestamp, content_data) := item in
  let timestamp_data := [("timestamp"%string, VStr timestamp)] in
  match selected_words tag content_data with
  | Some (key, ws) =>
      let result_words := top_words (sort_by_count_desc ws) in
      Some (dict_set key (VWords result_words) timestamp_data)
  | None => None
  end.

Fixpoint collect_entries (tag : option string)
    (items : list (string * dict (list Word))) : list (dict value) :=
  match items with
  | [] => []
  | item :: items' =>
      match bucket_entry tag item with
      | Some timestamp_data => timestamp_data :: collect_entries tag items'
      | None => collect_entries tag items'
      end
  end.

(** Lines 149-208 of [get_rank]: from the fetched rows to the result. *)
Definition rank_result (tag : option string) (raw_data : list Row)
  : list (dict value) :=
  collect_entries tag (sorted_items (group_records raw_data)).

(** ** Outcomes of a handler

    A handler returns a body (status 200), raises an [HTTPException]
    that the framework turns into a response with that status code, or
    lets another exception escape, which the framework answers with a
    500 server error. *)

Inductive exc :=
| ValueError
| KeyError (key : string)
| TypeError
| OverflowError
| ConnectionError.

Inductive outcome (A : Type) :=
| Return (a : A)
| HTTPException (status_code : Z) (detail : option string)
| Uncaught (e : exc).

Arguments Return {A} a.
Arguments HTTPException {A} status_code detail.
Arguments Uncaught {A} e.

Definition bind {A B : Type} (o : outcome A) (k : A -> outcome B) : outcome B :=
  match o with
  | Return a => k a
  | HTTPException c d => HTTPException c d
  | Uncaught e => Uncaught e
  end.

Notation "x <- o ;; k" := (bind o (fun x => k))
  (at level 61, o at next level, right associativity).
Notation "' p <- o ;; k" := (bind o (fun x => let 'p := x in k))
  (at level 61, p pattern, o at next level, right associativity).

(** [except ConnectionError: raise HTTPException(status_code=500, ...)]
    around the whole body of a handler. *)
Definition except_ConnectionError {A : Type} (o : outcome A) : outcome A :=
  match o with
  | Uncaught ConnectionError =>
      HTTPException 500 (Some "Unable to connect to the database."%string)
  | _ => o
  end.

Definition status_of {A : Type} (o : outcome A) : Z :=
  match o with
  | Return _ => 200
  | HTTPException c _ => c
  | Uncaught _ => 500
  end.

(** ** Calendar arithmetic and [strptime] *)

Section Calendar.
Local Open Scope nat_scope.

Definition is_leap (y : nat) : bool :=
  (y mod 4 =? 0) && (negb (y mod 100 =? 0) || (y mod 400 =? 0)).

Definition days_in_month (y m : nat) : nat :=
  match m with
  | 2 => if is_leap y then 29 else 28
  | 4 | 6 | 9 | 11 => 30
  | _ => 31
  end.

(** [t - timedelta(hours=24)]; before year 1 the date is out of range
    ([OverflowError]). *)
Definition minus_24h (t : datetime) : outcome datetime :=
  let mk y m d := mkdatetime y m d (hour t) (minute t) (second t) (microsecond t) in
  if 1 <? day t then Return (mk (year t) (month t) (day t - 1))
  else if 1 <? month t
       then Return (mk (year t) (month t - 1) (days_in_month (year t) (month t - 1)))
       else if 1 <? year t then Return (mk (year t - 1) 12 31)
            else Uncaught OverflowError.

(** The library turns the format ["%Y-%m-%d %H:%M:%S"] into the regular
    expression
    [(\d\d\d\d)-(1[0-2]|0[1-9]|[1-9])-(3[0-1]|[1-2]\d|0[1-9]|[1-9]| [1-9])\s+(2[0-3]|[0-1]\d|\d):([0-5]\d|\d):(6[0-1]|[0-5]\d|\d)],
    matches it at the start of the string, and rejects the string if
    the match does not end at its end or the fields are no date.  A
    matcher returns its ways to match in the order a backtracking
    engine tries them; the first complete one is the match.

    The model reads ASCII: [\d] is a digit 0-9 and [\s] an ASCII white
    space character.  The library also takes the decimal digits and the
    white space of other scripts (full-width digits, U+00A0, U+0085);
    such strings are rejected here, so the model is exact on ASCII
    strings and stricter than the library on the others. *)

Definition char_class := ascii -> bool.

Definition between (lo hi : nat) : char_class :=
  fun c => (lo <=? nat_of_ascii c) && (nat_of_ascii c <=? hi).

Definition d09 : char_class := between 48 57.
Definition chr (c : ascii) : char_class := Ascii.eqb c.

Definition is_space : char_class :=
  fun c => between 9 13 c || between 28 32 c.

Fixpoint match_seq (classes : list char_class) (input : list ascii)
  : option (list ascii * list ascii) :=
  match classes, input with
  | [], _ => Some ([], input)
  | _ :: _, [] => None
  | cl :: classes', c :: input' =>
      if cl c then
        match match_seq classes' input' with
        | Some (m, rest) => Some (c :: m, rest)
        | None => None
        end
      else None
  end.

(** [int(text)]: white space around the digits is ignored. *)
Definition int_of (text : list ascii) : nat :=
  fold_left (fun n c => if d09 c then 10 * n + (nat_of_ascii c - 48) else n) text 0.

Definition field (alternatives : list (list char_class)) (input : list ascii)
  : list (nat * list ascii) :=
  flat_map (fun alt => match match_seq alt input with
                       | Some (m, rest) => [(int_of m, rest)]
                       | None => []
                       end) alternatives.

Definition lit (c : ascii) (input : list ascii) : list (list ascii) :=
  match input with
  | c' :: rest => if Ascii.eqb c c' then [rest] else []
  | [] => []
  end.

(** [\s+], greedy: the longest run first. *)
Fixpoint spaces (input : list ascii) : list (list ascii) :=
  match input with
  | c :: rest => if is_space c then spaces rest ++ [rest] else []
  | [] => []
  end.

Definition re_Y := [[d09; d09; d09; d09]].
Definition re_m := [[chr "1"; between 48 50]; [chr "0"; between 49 57]; [between 49 57]].
Definition re_d :=
  [[chr "3"; between 48 49]; [between 49 50; d09]; [chr "0"; between 49 57];
   [between 49 57]; [chr " "; between 49 57]].
Definition re_H := [[chr "2"; between 48 51]; [between 48 49; d09]; [d09]].
Definition re_M := [[between 48 53; d09]; [d09]].
Definition re_S := [[chr "6"; between 48 49]; [between 48 53; d09]; [d09]].

Definition format_matches (input : list ascii) : list (datetime * list ascii) :=
  flat_map (fun '(yy, s) =>
  flat_map (fun s =>
  flat_map (fun '(mo, s) =>
  flat_map (fun s =>
  flat_map (fun '(dd, s) =>
  flat_map (fun s =>
  flat_map (fun '(hh, s) =>
  flat_map (fun s =>
  flat_map (fun '(mi, s) =>
  flat_map (fun s =>
  map (fun '(ss, s) => (mkdatetime yy mo dd hh mi ss 0, s))
    (field re_S s)) (lit ":" s)) (field re_M s)) (lit ":" s)) (field re_H s))
    (spaces s)) (field re_d s)) (lit "-" s)) (field re_m s)) (lit "-" s))
    (field re_Y input).

(** [datetime.strptime(data_string, "%Y-%m-%d %H:%M:%S")]; every
    failure is a [ValueError]. *)
Definition strptime (data_string : string) : outcome datetime :=
  match format_matches (list_ascii_of_string data_string) with
  | [] => Uncaught ValueError
  | (t, rest) :: _ =>
      match rest with
      | _ :: _ => Uncaught ValueError
      | [] =>
          if (1 <=? year t) && (day t <=? days_in_month (year t) (month t))
             && (second t <=? 59)
          then Return t
          else Uncaught ValueError
      end
  end.
End Calendar.

(** ** The record source and the clock *)

(** What [fetch_query.fetch_word_corrections_from_db] hands back: [None],
    a sequence of rows, or an exception. *)
Inductive fetched :=
| FetchNone
| FetchRows (rows : list Row)
| FetchRaises (e : exc).

(** The collaborators of a request: [now i] is the value of the [i]-th
    call of [datetime.now()] made while the request is handled. *)
Record Env := mkEnv {
  now : nat -> datetime;
  fetch_word_corrections_from_db : datetime -> datetime -> fetched
}.

(** The parsing of [start_time] and [end_time] shared by both handlers;
    an empty string takes the default. *)
Definition nonempty (s : string) : bool :=
  match s with EmptyString => false | String _ _ => true end.

Definition time_window (env : Env) (start_time end_time : string)
  : outcome (datetime * datetime) :=
  '(start_date_dt, calls) <-
      (if nonempty start_time
       then (t <- strptime start_time ;; Return (t, 0%nat))
       else (t <- minus_24h (now env 0%nat) ;; Return (t, 1%nat))) ;;
  end_date_dt <-
      (if nonempty end_time then strptime end_time
       else Return (now env calls)) ;;
  Return (start_date_dt, end_date_dt).

Definition call_fetch (env : Env) (start_date_dt end_date_dt : datetime)
  : outcome (option (list Row)) :=
  match fetch_word_corrections_from_db env start_date_dt end_date_dt with
  | FetchNone => Return None
  | FetchRows rows => Return (Some rows)
  | FetchRaises e => Uncaught e
  end.

(** ** [get_rank] *)

Definition get_rank (env : Env) (start_time end_time : string)
    (tag : option string) : outcome (list (dict value)) :=
  except_ConnectionError (
    '(start_date_dt, end_date_dt) <- time_window env start_time end_time ;;
    raw_data <- call_fetch env start_date_dt end_date_dt ;;
    match raw_data with
    | None | Some [] => HTTPException 204 None
    | Some rows => Return (rank_result tag rows)
    end).

(** ** [get_word_tags] *)

(** The per-bucket dictionary of [get_word_tags].  Its seven keys are
    fixed when the bucket is created and no statement adds a key, so it
    is a record. *)
Record Summary := mkSummary {
  m_total : Z;
  m_news : Z;
  m_webtoon : Z;
  m_youtube : Z;
  m_search_word : string;
  m_incorrect_word : list string;
  m_correct_word : list string
}.

Definition new_summary (search_word : string) : Summary :=
  mkSummary 0 0 0 0 search_word [] [].

Definition add_total (n : Z) (s : Summary) : Summary :=
  mkSummary (m_total s + n) (m_news s) (m_webtoon s) (m_youtube s)
            (m_search_word s) (m_incorrect_word s) (m_correct_word s).

(** [summary[content_tag] += occurrence_count]: a missing key is a
    [KeyError]; the keys that hold a string or a list cannot take an
    integer ([TypeError]). *)
Definition add_to_key (content_tag : string) (n : Z) (s : Summary)
  : outcome Summary :=
  if String.eqb content_tag "total" then Return (add_total n s)
  else if String.eqb content_tag "news" then
    Return (mkSummary (m_total s) (m_news s + n) (m_webtoon s) (m_youtube s)
                      (m_search_word s) (m_incorrect_word s) (m_correct_word s))
  else if String.eqb content_tag "webtoon" then
    Return (mkSummary (m_total s) (m_news s) (m_webtoon s + n) (m_youtube s)
                      (m_search_word s) (m_incorrect_word s) (m_correct_word s))
  else if String.eqb content_tag "youtube" then
    Return (mkSummary (m_total s) (m_news s) (m_webtoon s) (m_youtube s + n)
                      (m_search_word s) (m_incorrect_word s) (m_correct_word s))
  else if String.eqb content_tag "search_word"
          || String.eqb content_tag "incorrect_word"
          || String.eqb content_tag "correct_word"
  then Uncaught TypeError
  else Uncaught (KeyError content_tag).

Definition append_if_absent (w : string) (l : list string) : list string :=
  if existsb (String.eqb w) l then l else l ++ [w].

Definition note_words (search_word : string) (record : Row) (s : Summary)
  : Summary :=
  if String.eqb search_word (row_incorrect_word record)
     || String.eqb search_word (row_correct_word record)
  then mkSummary (m_total s) (m_news s) (m_webtoon s) (m_youtube s)
                 (m_search_word s)
                 (append_if_absent (row_incorrect_word record) (m_incorrect_word s))
                 (append_if_absent (row_correct_word record) (m_correct_word s))
  else s.

(** One round of the loop over [raw_data]. *)
Definition mention_step (search_word : string) (mention_counts : dict Summary)
    (record : Row) : outcome (dict Summary) :=
  let timestamp_str := strftime (row_timestamp record) in
  let mention_counts :=
    if dict_mem timestamp_str mention_counts then mention_counts
    else dict_set timestamp_str (new_summary search_word) mention_counts in
  let summary :=
    match dict_get timestamp_str mention_counts with
    | Some s => s
    | None => new_summary search_word
    end in
  summary <- add_to_key (row_content_tag record) (row_occurrence_count record) summary ;;
  let summary := add_total (row_occurrence_count record) summary in
  let summary := note_words search_word record summary in
  Return (dict_set timestamp_str summary mention_counts).

Fixpoint mention_loop (search_word : string) (mention_counts : dict Summary)
    (raw_data : list Row) : outcome (dict Summary) :=
  match raw_data with
  | [] => Return mention_counts
  | record :: rest =>
      mention_counts <- mention_step search_word mention_counts record ;;
      mention_loop search_word mention_counts rest
  end.

(** One element of the result: [{"timestamp": timestamp, **tag_counts}]. *)
Record MentionEntry := mkMentionEntry {
  entry_timestamp : string;
  entry_counts : Summary
}.

Definition mention_result (search_word : string) (raw_data : list Row)
  : outcome (list MentionEntry) :=
  mention_counts <- mention_loop search_word [] raw_data ;;
  Return (map (fun '(timestamp, tag_counts) => mkMentionEntry timestamp tag_counts)
              mention_counts).

Definition get_word_tags (env : Env) (start_time end_time : string)
    (search_word : string) : outcome (list MentionEntry) :=
  except_ConnectionError (
    '(start_date_dt, end_date_dt) <- time_window env start_time end_time ;;
    raw_data <- call_fetch env start_date_dt end_date_dt ;;
    match raw_data with
    | None => HTTPException 204 None
    | Some rows => mention_result search_word rows
    end).

(** * Vocabulary of the statements *)

(** ** Orders and subsequences *)

(** The lexicographic order in which Python compares strings. *)
Definition str_le (s1 s2 : string) : Prop := String.leb s1 s2 = true.

(** [x] may stand before [y]. *)
Definition le_rel {A : Type} (le : A -> A -> bool) (x y : A) : Prop :=
  le x y = true.

(** [l1] is [l2] with some elements left out. *)
Inductive subseq {A : Type} : list A -> list A -> Prop :=
| subseq_nil : subseq [] []
| subseq_skip x l1 l2 : subseq l1 l2 -> subseq l1 (x :: l2)
| subseq_keep x l1 l2 : subseq l1 l2 -> subseq (x :: l1) (x :: l2).

#[local] Hint Constructors subseq : core.

(** ** Ranking *)

(** What the loop computes, in the words of its purpose: keep a word iff
    its rank has not been seen, and remember the rank. *)
Fixpoint keep_first_per_rank (seen : list Z) (ws : list Word) : list Word :=
  match ws with
  | [] => []
  | w :: ws' =>
      if existsb (Z.eqb (rank w)) seen then keep_first_per_rank seen ws'
      else w :: keep_first_per_rank (rank w :: seen) ws'
  end.

(** The key of the bucket a row falls into. *)
Definition bucket_key (record : Row) : string := strftime (row_timestamp record).

(** The rows of bucket [T] that carry tag [g]. *)
Definition in_bucket (T g : string) (record : Row) : bool :=
  String.eqb (bucket_key record) T && String.eqb (row_content_tag record) g.

(** [processed_data[T][g]], the empty list where a key is missing. *)
Definition words_at (processed_data : dict (dict (list Word))) (T g : string)
  : list Word :=
  match dict_get T processed_data with
  | Some content_data =>
      match dict_get g content_data with
      | Some ws => ws
      | None => []
      end
  | None => []
  end.

(** The state of [processed_data] after the rows [seen]. *)
Record grouped (seen : list Row) (pd : dict (dict (list Word))) : Prop := {
  grouped_keys : NoDup (dict_keys pd);
  grouped_tags : forall T cd, dict_get T pd = Some cd -> NoDup (dict_keys cd);
  grouped_words : forall T g,
      words_at pd T g = map word_of (filter (in_bucket T g) seen);
  grouped_nonempty : forall T cd g ws,
      dict_get T pd = Some cd -> dict_get g cd = Some ws -> ws <> []
}.

(** The bucket of a row after the row has been added. *)
Definition bucket_after (pd : dict (dict (list Word))) (record : Row)
  : dict (list Word) :=
  let cd := match dict_get (bucket_key record) pd with
            | Some cd => cd
            | None => []
            end in
  dict_set (row_content_tag record)
    (words_at pd (bucket_key record) (row_content_tag record) ++ [word_of record])
    cd.

(** [x] may stand before [y] in a list of descending counts. *)
Definition count_desc (x y : Word) : Prop :=
  occurrence_count y <= occurrence_count x.

(** The items of a dictionary by ascending key. *)
Definition key_le_rel {V : Type} (x y : string * V) : Prop :=
  str_le (fst x) (fst y).

(** The dictionary built for bucket [T] when [es] is stored under [key]. *)
Definition timestamp_data_of (T key : string) (es : list Word) : dict value :=
  dict_set key (VWords es) [("timestamp"%string, VStr T)].

(** [d] is the output dictionary of bucket [T] of [rows], built from the
    words [ws] selected under [key]. *)
Definition emitted_from (tag : option string) (rows : list Row)
    (T key : string) (ws : list Word) (d : dict value) : Prop :=
  exists cd,
    dict_get T (group_records rows) = Some cd /\
    selected_words tag cd = Some (key, ws) /\
    d = timestamp_data_of T key (top_words (sort_by_count_desc ws)).

(** The timestamp fields of two output dictionaries are strings in
    ascending order. *)
Definition timestamp_le (d1 d2 : dict value) : Prop :=
  exists s1 s2,
    dict_get "timestamp" d1 = Some (VStr s1) /\
    dict_get "timestamp" d2 = Some (VStr s2) /\
    str_le s1 s2.

(** ** Mentions *)

(** The three channels. *)
Definition is_channel (content_tag : string) : bool :=
  String.eqb content_tag "news" || String.eqb content_tag "webtoon"
  || String.eqb content_tag "youtube".

(** The keys of a bucket's dictionary that hold a number. *)
Definition is_counter (content_tag : string) : bool :=
  String.eqb content_tag "total" || is_channel content_tag.

(** The seven keys of a bucket's dictionary. *)
Definition is_summary_key (content_tag : string) : bool :=
  is_counter content_tag
  || String.eqb content_tag "search_word"
  || String.eqb content_tag "incorrect_word"
  || String.eqb content_tag "correct_word".

(** The total is the sum of the three channel counters. *)
Definition balanced (s : Summary) : Prop :=
  m_total s = m_news s + m_webtoon s + m_youtube s.

Definition all_balanced (mention_counts : dict Summary) : Prop :=
  forall T s, In (T, s) mention_counts -> balanced s.

(** The bucket keys in the order of their first occurrence. *)
Fixpoint first_seen (keys : list string) : list string :=
  match keys with
  | [] => []
  | k :: keys' =>
      k :: filter (fun k' => negb (String.eqb k' k)) (first_seen keys')
  end.

(** [k not in keys] *)
Definition absent (keys : list string) (k : string) : bool :=
  negb (existsb (String.eqb k) keys).

(** ** Requests *)

(** The request parses and the record source hands back [rows]. *)
Definition fetched_rows (env : Env) (start_time end_time : string)
    (rows : list Row) : Prop :=
  exists start_date_dt end_date_dt,
    time_window env start_time end_time = Return (start_date_dt, end_date_dt) /\
    fetch_word_corrections_from_db env start_date_dt end_date_dt = FetchRows rows.


(** ** Sample requests *)

Module Sample.
Local Open Scope string_scope.

Definition h04 := mkdatetime 2023 8 28 4 0 0 0.
Definition h05 := mkdatetime 2023 8 28 5 0 0 0.

(** Two buckets, the later one first; in bucket 04:00 rank 2 occurs
    under two tags. *)
Definition rows : list Row :=
  [ mkRow h05 "gutsi" "gudi" "news" 31 1;
    mkRow h04 "yeokhwal" "yeokhal" "webtoon" 28 2;
    mkRow h04 "ilburo" "ilbureo" "news" 28 2;
    mkRow h04 "gomgomhi" "gomgomi" "news" 40 3 ].

Definition env : Env := mkEnv (fun _ => h05) (fun _ _ => FetchRows rows).

(** Twelve rows of one bucket and tag with pairwise different ranks. *)
Definition many : list Row :=
  map (fun i => mkRow h04 "a" "b" "news" (Z.of_nat i) (Z.of_nat i)) (seq 1 12).

Definition env_many : Env := mkEnv (fun _ => h05) (fun _ _ => FetchRows many).

Definition start := "2023-08-27 22:12:03".
Definition stop := "2023-08-28 22:12:03".

Definition w_gomgomhi := mkWord "gomgomhi" "gomgomi" 40 3.
Definition w_yeokhwal := mkWord "yeokhwal" "yeokhal" 28 2.
Definition w_ilburo := mkWord "ilburo" "ilbureo" 28 2.
Definition w_gutsi := mkWord "gutsi" "gudi" 31 1.

Definition total_04 : dict value :=
  [("timestamp", VStr "2023-08-28 04:00:00");
   ("total", VWords [w_gomgomhi; w_yeokhwal])].
Definition total_05 : dict value :=
  [("timestamp", VStr "2023-08-28 05:00:00"); ("total", VWords [w_gutsi])].
Definition news_04 : dict value :=
  [("timestamp", VStr "2023-08-28 04:00:00");
   ("news", VWords [w_gomgomhi; w_ilburo])].
Definition webtoon_04 : dict value :=
  [("timestamp", VStr "2023-08-28 04:00:00"); ("webtoon", VWords [w_yeokhwal])].

Definition top_many : list Word :=
  Eval vm_compute in
    map (fun i => mkWord "a" "b" (Z.of_nat i) (Z.of_nat i)) (rev (seq 3 10)).
Definition news_many : dict value :=
  [("timestamp", VStr "2023-08-28 04:00:00"); ("news", VWords top_many)].

(** Two buckets whose rows carry the tag "timestamp". *)
Definition rows_timestamp : list Row :=
  [ mkRow h04 "a" "b" "timestamp" 5 1; mkRow h05 "c" "d" "timestamp" 7 1 ].

Definition env_timestamp : Env :=
  mkEnv (fun _ => h05) (fun _ _ => FetchRows rows_timestamp).

(** What [get_rank] returns for them when the tag "timestamp" is
    requested. *)
Definition out_timestamp : list (dict value) :=
  [ [("timestamp", VWords [mkWord "a" "b" 5 1])];
    [("timestamp", VWords [mkWord "c" "d" 7 1])] ].

(** The result of the mention query on [rows]: the buckets in the
    order of the rows, 05:00 before 04:00. *)
Definition mentions : list MentionEntry :=
  [ mkMentionEntry "2023-08-28 05:00:00"
      (mkSummary 31 31 0 0 "gutsi" ["gutsi"] ["gudi"]);
    mkMentionEntry "2023-08-28 04:00:00"
      (mkSummary 96 68 28 0 "gutsi" [] []) ].

(** A row with a tag that is no channel, between two rows with one. *)
Definition rows_sports : list Row :=
  [ mkRow h04 "gutsi" "gudi" "news" 31 1;
    mkRow h04 "opsaid" "offside" "sports" 7 2;
    mkRow h05 "yeokhwal" "yeokhal" "webtoon" 28 1 ].

Definition env_sports : Env :=
  mkEnv (fun _ => h05) (fun _ _ => FetchRows rows_sports).

(** The record source finds nothing and hands back an empty sequence. *)
Definition env_empty : Env := mkEnv (fun _ => h05) (fun _ _ => FetchRows []).

End Sample.

(** ** Vocabulary of the further properties *)

(** Strictly ascending strings. *)
Definition str_lt (s1 s2 : string) : Prop := str_le s1 s2 /\ s1 <> s2.

(** A row of bucket [T] that the request selects: any row of the bucket,
    or, with a requested tag, a row of the bucket with that tag. *)
Definition row_selected (tag : option string) (T : string) (r : Row) : Prop :=
  bucket_key r = T /\ forall t, truthy tag = Some t -> row_content_tag r = t.

(** The bucket contributes to the result of the request. *)
Definition contributes (tag : option string) (item : string * dict (list Word))
  : bool :=
  match selected_words tag (snd item) with
  | Some _ => true
  | None => false
  end.

(** The sum of the occurrence counts of some rows. *)
Definition sum_counts (rows : list Row) : Z :=
  fold_right (fun r acc => row_occurrence_count r + acc) 0 rows.

Definition in_bucket_of (T : string) (r : Row) : bool :=
  String.eqb (bucket_key r) T.

Definition has_tag (g : string) (r : Row) : bool :=
  String.eqb (row_content_tag r) g.

(** The search word is the incorrect or the correct word of the row. *)
Definition mentions_word (search_word : string) (r : Row) : bool :=
  String.eqb search_word (row_incorrect_word r)
  || String.eqb search_word (row_correct_word r).

(** What the loop of [get_word_tags] leaves in bucket [T], said without
    a loop: sums over the rows of the bucket, and the words of its rows
    that match the search word, each at its first occurrence.  A row
    tagged "total" is added to the total twice. *)
Definition expected_summary (search_word : string) (rows : list Row) (T : string)
  : Summary :=
  let B := filter (in_bucket_of T) rows in
  mkSummary
    (sum_counts B + sum_counts (filter (has_tag "total") B))
    (sum_counts (filter (has_tag "news") B))
    (sum_counts (filter (has_tag "webtoon") B))
    (sum_counts (filter (has_tag "youtube") B))
    search_word
    (first_seen (map row_incorrect_word (filter (mentions_word search_word) B)))
    (first_seen (map row_correct_word (filter (mentions_word search_word) B))).

(** The keys of a bucket's dictionary that hold a string or a list. *)
Definition is_text_key (content_tag : string) : bool :=
  String.eqb content_tag "search_word"
  || String.eqb content_tag "incorrect_word"
  || String.eqb content_tag "correct_word".

(** The state of [mention_counts] after the rows [seen]. *)
Definition mention_state (search_word : string) (seen : list Row)
    (mention_counts : dict Summary) : Prop :=
  forall T,
    match dict_get T mention_counts with
    | Some s => s = expected_summary search_word seen T
    | None => filter (in_bucket_of T) seen = []
    end.

(** The exception [summary[content_tag] += n] raises for a tag that is
    no counter. *)
Definition fault_of (content_tag : string) : exc :=
  if is_text_key content_tag then TypeError else KeyError content_tag.

(** The detail of the 500 response. *)
Definition database_detail : string := "Unable to connect to the database.".

(** The default values of [start_time] and [end_time], computed once
    when the module is loaded at [current_time]:
    [(current_time - timedelta(hours=24)).strftime(...)] and
    [current_time.strftime(...)]. *)
Definition start_example (current_time : datetime) : outcome string :=
  t <- minus_24h current_time ;; Return (strftime t).

Definition end_example (current_time : datetime) : string :=
  strftime current_time.

(** A calendar date and time of day with a four-digit year. *)
Definition valid_datetime (t : datetime) : Prop :=
  (1000 <= year t < 10 * 1000 /\
   1 <= month t <= 12 /\
   1 <= day t <= days_in_month (year t) (month t) /\
   hour t < 24 /\ minute t < 60 /\ second t < 60)%nat.

(** The time without its microseconds. *)
Definition whole_second (t : datetime) : datetime :=
  mkdatetime (year t) (month t) (day t) (hour t) (minute t) (second t) 0.

(** The first element of a list: the first way to match. *)
Definition starts_with {A : Type} (l : list A) (x : A) : Prop :=
  exists tl, l = x :: tl.

(** * Properties *)

(** ** Dictionaries *)

Section DictFacts.
Context {V : Type}.
Implicit Types (d : dict V) (k : string) (v : V).

Lemma dict_get_In k d v : dict_get k d = Some v -> In (k, v) d.
Proof.
  induction d as [|[k' v'] d IH]; simpl; [discriminate|].
  destruct (String.eqb_spec k k') as [->|_].
  - intros [= ->]. now left.
  - intros H. right. now apply IH.
Qed.

Lemma dict_set_In k v d k' v' :
  In (k', v') (dict_set k v d) -> (k' = k /\ v' = v) \/ In (k', v') d.
Proof.
  induction d as [|[k0 v0] d IH]; simpl.
  - intros [[= <- <-]|[]]. now left.
  - destruct (String.eqb_spec k k0) as [->|_]; simpl.
    + intros [[= <- <-]|H]; [now left | right; now right].
    + intros [H|H]; [right; now left|].
      destruct (IH H) as [?|?]; [now left | right; now right].
Qed.

Lemma dict_get_set_same k v d : dict_get k (dict_set k v d) = Some v.
Proof.
  induction d as [|[k0 v0] d IH]; simpl.
  - now rewrite String.eqb_refl.
  - destruct (String.eqb_spec k k0) as [->|Hne]; simpl.
    + now rewrite String.eqb_refl.
    + destruct (String.eqb_spec k k0); [contradiction | exact IH].
Qed.

Lemma dict_get_set_other k k' v d :
  k' <> k -> dict_get k' (dict_set k v d) = dict_get k' d.
Proof.
  intros Hne. induction d as [|[k0 v0] d IH]; simpl.
  - destruct (String.eqb_spec k' k); [contradiction | reflexivity].
  - destruct (String.eqb_spec k k0) as [->|_]; simpl.
    + destruct (String.eqb_spec k' k0); [contradiction | reflexivity].
    + now rewrite IH.
Qed.

Lemma dict_mem_keys k d : dict_mem k d = existsb (String.eqb k) (dict_keys d).
Proof.
  unfold dict_mem. induction d as [|[k0 v0] d IH]; simpl; [reflexivity|].
  destruct (String.eqb k k0); simpl; [reflexivity | exact IH].
Qed.

(** Assigning to a key already present keeps the keys and their order;
    a new key is appended. *)
Lemma dict_keys_set k v d :
  dict_keys (dict_set k v d)
  = if dict_mem k d then dict_keys d else dict_keys d ++ [k].
Proof.
  unfold dict_mem. induction d as [|[k0 v0] d IH]; simpl; [reflexivity|].
  destruct (String.eqb k k0); simpl; [reflexivity|].
  rewrite IH. now destruct (dict_get k d).
Qed.
End DictFacts.

(** ** The order on strings *)

Lemma string_compare_trans (s1 s2 s3 : string) :
  String.compare s1 s2 <> Gt -> String.compare s2 s3 <> Gt ->
  String.compare s1 s3 <> Gt.
Proof.
  revert s2 s3.
  induction s1 as [|a s1 IH]; intros [|b s2] [|c s3]; simpl;
    try congruence.
  unfold Ascii.compare.
  destruct (N.compare_spec (N_of_ascii a) (N_of_ascii b)) as [Hab|Hab|Hab];
    destruct (N.compare_spec (N_of_ascii b) (N_of_ascii c)) as [Hbc|Hbc|Hbc];
    try congruence; intros H12 H23.
  - rewrite Hab, Hbc, N.compare_refl. now apply (IH s2).
  - assert (Hac : (N_of_ascii a < N_of_ascii c)%N) by lia.
    apply N.compare_lt_iff in Hac. rewrite Hac. discriminate.
  - assert (Hac : (N_of_ascii a < N_of_ascii c)%N) by lia.
    apply N.compare_lt_iff in Hac. rewrite Hac. discriminate.
  - assert (Hac : (N_of_ascii a < N_of_ascii c)%N) by lia.
    apply N.compare_lt_iff in Hac. rewrite Hac. discriminate.
Qed.

Lemma str_le_trans (s1 s2 s3 : string) :
  str_le s1 s2 -> str_le s2 s3 -> str_le s1 s3.
Proof.
  unfold str_le, String.leb. intros H12 H23.
  assert (H : String.compare s1 s3 <> Gt).
  { apply (string_compare_trans s1 s2 s3).
    - destruct (String.compare s1 s2); congruence.
    - destruct (String.compare s2 s3); congruence. }
  destruct (String.compare s1 s3); congruence.
Qed.

(** ** The stable sort *)

Section StableSortFacts.
Context {A : Type} (le : A -> A -> bool).

Hypothesis le_total : forall x y, le x y = false -> le y x = true.
Hypothesis le_trans : forall x y z, le x y = true -> le y z = true -> le x z = true.

Lemma insert_sorted_perm x l : Permutation (x :: l) (insert_sorted le x l).
Proof.
  induction l as [|y l IH]; simpl; [apply Permutation_refl|].
  destruct (le x y); [apply Permutation_refl|].
  eapply perm_trans; [apply perm_swap|]. now apply perm_skip.
Qed.

Lemma stable_sort_perm l : Permutation l (stable_sort le l).
Proof.
  induction l as [|x l IH]; simpl; [constructor|].
  eapply perm_trans; [|apply insert_sorted_perm]. now apply perm_skip.
Qed.

Lemma stable_sort_In x l : In x (stable_sort le l) <-> In x l.
Proof.
  split; apply Permutation_in;
    [apply Permutation_sym|]; apply stable_sort_perm.
Qed.

Lemma insert_sorted_strongly x l :
  StronglySorted (le_rel le) l -> StronglySorted (le_rel le) (insert_sorted le x l).
Proof.
  induction 1 as [|y l Hl IH Hy]; simpl.
  - constructor; constructor.
  - destruct (le x y) eqn:Hxy.
    + constructor; [now constructor|].
      constructor; [exact Hxy|].
      eapply Forall_impl; [|exact Hy].
      intros z Hz. exact (le_trans _ _ _ Hxy Hz).
    + constructor; [exact IH|].
      apply Forall_forall. intros z Hz.
      apply (Permutation_in _ (Permutation_sym (insert_sorted_perm x l))) in Hz.
      destruct Hz as [<-|Hz].
      * now apply le_total.
      * revert z Hz. now apply Forall_forall.
Qed.

Lemma stable_sort_strongly l : StronglySorted (le_rel le) (stable_sort le l).
Proof.
  induction l as [|x l IH]; simpl; [constructor|].
  now apply insert_sorted_strongly.
Qed.

(** Stability: the elements of a class [p] whose members all may stand
    before one another keep their order. *)
Lemma insert_sorted_filter (p : A -> bool) x l :
  (forall y, p x = true -> p y = true -> le x y = true) ->
  filter p (insert_sorted le x l) = filter p (x :: l).
Proof.
  intros Hp. induction l as [|y l IH]; simpl; [reflexivity|].
  destruct (le x y) eqn:Hxy; simpl; [reflexivity|].
  simpl in IH. rewrite IH.
  destruct (p x) eqn:Hpx; [|reflexivity].
  destruct (p y) eqn:Hpy; [|reflexivity].
  rewrite (Hp y eq_refl Hpy) in Hxy. discriminate.
Qed.

Lemma stable_sort_filter (p : A -> bool) l :
  (forall x y, p x = true -> p y = true -> le x y = true) ->
  filter p (stable_sort le l) = filter p l.
Proof.
  intros Hp. induction l as [|x l IH]; simpl; [reflexivity|].
  rewrite insert_sorted_filter by (apply Hp).
  simpl. now rewrite IH.
Qed.
End StableSortFacts.

(** ** Subsequences *)

Section SubseqFacts.
Context {A : Type}.
Implicit Types l : list A.

Lemma subseq_nil_l l : subseq [] l.
Proof. induction l; auto. Qed.

Lemma subseq_In l1 l2 x : subseq l1 l2 -> In x l1 -> In x l2.
Proof.
  induction 1 as [|y l1 l2 _ IH|y l1 l2 _ IH]; simpl; intuition.
Qed.

Lemma subseq_firstn n l : subseq (firstn n l) l.
Proof.
  revert n. induction l as [|x l IH]; intros [|n]; simpl; auto.
  apply subseq_nil_l.
Qed.

Lemma subseq_trans l1 l2 l3 : subseq l1 l2 -> subseq l2 l3 -> subseq l1 l3.
Proof.
  intros H12 H23. revert l1 H12.
  induction H23 as [|x l2 l3 _ IH|x l2 l3 _ IH]; intros l1 H12; auto.
  inversion H12; subst; auto.
Qed.

Lemma subseq_filter (p : A -> bool) l1 l2 :
  subseq l1 l2 -> subseq (filter p l1) (filter p l2).
Proof.
  induction 1 as [|x l1 l2 _ IH|x l1 l2 _ IH]; simpl; auto;
    destruct (p x); auto.
Qed.

Lemma subseq_map {B : Type} (f : A -> B) l1 l2 :
  subseq l1 l2 -> subseq (map f l1) (map f l2).
Proof. induction 1; simpl; auto. Qed.

Lemma subseq_strongly_sorted (R : A -> A -> Prop) l1 l2 :
  subseq l1 l2 -> StronglySorted R l2 -> StronglySorted R l1.
Proof.
  induction 1 as [|x l1 l2 Hs IH|x l1 l2 Hs IH]; intros H2; auto;
    inversion H2 as [|? ? Hl Hx]; subst; auto.
  constructor; [auto|].
  apply Forall_forall. intros y Hy.
  rewrite Forall_forall in Hx. apply Hx. eapply subseq_In; eassumption.
Qed.
End SubseqFacts.

Lemma subseq_NoDup {A : Type} (l1 l2 : list A) :
  subseq l1 l2 -> NoDup l2 -> NoDup l1.
Proof.
  induction 1 as [|x l1 l2 Hs IH|x l1 l2 Hs IH]; intros H2; auto;
    inversion H2; subst; auto.
  constructor; auto. intros Hx. eauto using subseq_In.
Qed.

(** ** The de-duplication loop *)

Lemma existsb_Zeqb_In (z : Z) (l : list Z) :
  existsb (Z.eqb z) l = true <-> In z l.
Proof.
  rewrite existsb_exists. split.
  - intros (y & Hy & Heq). apply Z.eqb_eq in Heq. now subst.
  - intros H. exists z. split; [assumption | apply Z.eqb_refl].
Qed.

Lemma dedup_loop_spec (ws : list Word) (unique_ranks : list Z) (result_words : list Word) :
  (length result_words < 10)%nat ->
  dedup_loop ws unique_ranks result_words
  = result_words
    ++ firstn (10 - length result_words) (keep_first_per_rank unique_ranks ws).
Proof.
  revert unique_ranks result_words.
  induction ws as [|w ws IH]; intros ur rw Hlen;
    cbn [dedup_loop keep_first_per_rank].
  - now rewrite firstn_nil, app_nil_r.
  - destruct (existsb (Z.eqb (rank w)) ur).
    + destruct (Nat.leb_spec 10 (length rw)); [lia|]. now apply IH.
    + destruct (Nat.leb_spec 10 (length (rw ++ [w]))) as [Hfull|Hroom];
        rewrite length_app in *; cbn [length] in *.
      * replace (10 - length rw)%nat with 1%nat by lia. reflexivity.
      * rewrite IH by (rewrite length_app; cbn [length]; lia).
        rewrite length_app; cbn [length].
        replace (10 - length rw)%nat with (S (10 - (length rw + 1))) by lia.
        cbn [firstn]. now rewrite <- app_assoc.
Qed.

Lemma top_words_spec (sorted_words : list Word) :
  top_words sorted_words = firstn 10 (keep_first_per_rank [] sorted_words).
Proof.
  unfold top_words. rewrite dedup_loop_spec by (cbn [length]; lia). reflexivity.
Qed.

Lemma keep_first_subseq (seen : list Z) (ws : list Word) :
  subseq (keep_first_per_rank seen ws) ws.
Proof.
  revert seen. induction ws as [|w ws IH]; intros seen; simpl; auto.
  destruct (existsb (Z.eqb (rank w)) seen); auto.
Qed.

Lemma keep_first_fresh (seen : list Z) (ws : list Word) (w : Word) :
  In w (keep_first_per_rank seen ws) -> ~ In (rank w) seen.
Proof.
  revert seen. induction ws as [|x ws IH]; intros seen; simpl; [tauto|].
  destruct (existsb (Z.eqb (rank x)) seen) eqn:Hseen.
  - apply IH.
  - intros [<-|Hin].
    + rewrite <- existsb_Zeqb_In. congruence.
    + intros Hs. apply (IH _ Hin). now right.
Qed.

Lemma keep_first_NoDup (seen : list Z) (ws : list Word) :
  NoDup (map rank (keep_first_per_rank seen ws)).
Proof.
  revert seen. induction ws as [|x ws IH]; intros seen; simpl; [constructor|].
  destruct (existsb (Z.eqb (rank x)) seen); [apply IH|].
  simpl. constructor; [|apply IH].
  rewrite in_map_iff. intros (w & Hr & Hin).
  apply keep_first_fresh in Hin. apply Hin. left. now symmetry.
Qed.

(** A kept word is the first word of the scanned list with its rank. *)
Lemma keep_first_is_first (seen : list Z) (ws : list Word) (w : Word) :
  In w (keep_first_per_rank seen ws) ->
  exists before after,
    ws = before ++ w :: after /\ forall x, In x before -> rank x <> rank w.
Proof.
  revert seen. induction ws as [|x ws IH]; intros seen; simpl; [tauto|].
  destruct (existsb (Z.eqb (rank x)) seen) eqn:Hseen.
  - intros Hin. pose proof (keep_first_fresh _ _ _ Hin) as Hfresh.
    destruct (IH _ Hin) as (before & after & -> & Hb).
    exists (x :: before), after. split; [reflexivity|].
    intros y [<-|Hy]; [|now apply Hb].
    intros Heq. apply Hfresh. rewrite <- Heq. now apply existsb_Zeqb_In.
  - intros [<-|Hin].
    + exists [], ws. split; [reflexivity | intros y []].
    + pose proof (keep_first_fresh _ _ _ Hin) as Hfresh.
      destruct (IH _ Hin) as (before & after & -> & Hb).
      exists (x :: before), after. split; [reflexivity|].
      intros y [<-|Hy]; [|now apply Hb].
      intros Heq. apply Hfresh. left. exact Heq.
Qed.

Lemma top_words_subseq (ws : list Word) : subseq (top_words ws) ws.
Proof.
  rewrite top_words_spec.
  eapply subseq_trans; [apply subseq_firstn | apply keep_first_subseq].
Qed.

Lemma top_words_length (ws : list Word) : (length (top_words ws) <= 10)%nat.
Proof. rewrite top_words_spec. apply firstn_le_length. Qed.

Lemma top_words_NoDup (ws : list Word) : NoDup (map rank (top_words ws)).
Proof.
  rewrite top_words_spec.
  eapply subseq_NoDup; [|apply (keep_first_NoDup [] ws)].
  apply subseq_map, subseq_firstn.
Qed.

Lemma top_words_is_first (ws : list Word) (w : Word) :
  In w (top_words ws) ->
  exists before after,
    ws = before ++ w :: after /\ forall x, In x before -> rank x <> rank w.
Proof.
  rewrite top_words_spec. intros Hin.
  apply (keep_first_is_first []).
  eapply subseq_In; [apply subseq_firstn | exact Hin].
Qed.

(** A word that first occurs in the scan after a word of the same rank is
    not kept. *)
Lemma top_words_drops_later (ws before after : list Word) (w : Word) :
  ws = before ++ w :: after ->
  ~ In w before ->
  (exists x, In x before /\ rank x = rank w) ->
  ~ In w (top_words ws).
Proof.
  intros Hws Hfirst (x & Hx & Hrank) Hkept.
  destruct (top_words_is_first _ _ Hkept) as (before' & after' & Hws' & Hfresh).
  rewrite Hws in Hws'. apply app_eq_app in Hws'.
  destruct Hws' as (l & [[Hb Ha]|[Hb Ha]]).
  - destruct l as [|y l].
    + rewrite app_nil_r in Hb. subst before'. exact (Hfresh x Hx Hrank).
    + injection Ha as <- _. apply Hfirst. rewrite Hb.
      apply in_or_app. right. now left.
  - apply (Hfresh x); [|exact Hrank]. rewrite Hb. apply in_or_app. now left.
Qed.

(** ** More on dictionaries: unique keys *)

Section DictKeys.
Context {V : Type}.
Implicit Types (d : dict V) (k : string) (v : V).

Lemma existsb_eqb_In k (l : list string) :
  existsb (String.eqb k) l = true <-> In k l.
Proof.
  rewrite existsb_exists. split.
  - intros (y & Hy & Heq). apply String.eqb_eq in Heq. now subst.
  - intros H. exists k. split; [assumption | apply String.eqb_refl].
Qed.

Lemma dict_mem_In k d : dict_mem k d = true <-> In k (dict_keys d).
Proof. rewrite dict_mem_keys. apply existsb_eqb_In. Qed.

Lemma dict_set_NoDup k v d :
  NoDup (dict_keys d) -> NoDup (dict_keys (dict_set k v d)).
Proof.
  intros Hnd. rewrite dict_keys_set.
  destruct (dict_mem k d) eqn:Hmem; [assumption|].
  apply NoDup_app; [assumption | repeat constructor; intros [] |].
  intros x Hx [<-|[]]. apply dict_mem_In in Hx. congruence.
Qed.

Lemma In_dict_get k v d :
  NoDup (dict_keys d) -> In (k, v) d -> dict_get k d = Some v.
Proof.
  induction d as [|[k0 v0] d IH]; simpl; [tauto|].
  intros Hnd [[= -> ->]|Hin].
  - now rewrite String.eqb_refl.
  - inversion Hnd as [|? ? Hk0 Hnd']; subst.
    destruct (String.eqb_spec k k0) as [->|_]; [|now apply IH].
    exfalso. apply Hk0. change k0 with (fst (k0, v)). now apply in_map.
Qed.
End DictKeys.

(** ** Grouping the rows *)

Lemma grouped_nil : grouped [] [].
Proof. split; simpl; try constructor; intros; discriminate. Qed.

Lemma dict_set_set (V : Type) (k : string) (v v' : V) (d : dict V) :
  dict_set k v (dict_set k v' d) = dict_set k v d.
Proof.
  induction d as [|[k0 v0] d IH]; simpl.
  - now rewrite String.eqb_refl.
  - destruct (String.eqb k k0) eqn:E; simpl; rewrite E; [reflexivity|].
    now rewrite IH.
Qed.

Lemma add_record_eq (pd : dict (dict (list Word))) (record : Row) :
  add_record pd record = dict_set (bucket_key record) (bucket_after pd record) pd.
Proof.
  unfold add_record, bucket_after, words_at. fold (bucket_key record).
  set (T := bucket_key record). set (g := row_content_tag record).
  destruct (dict_get T pd) as [cd|] eqn:HT.
  - assert (Hm : dict_mem T pd = true) by (unfold dict_mem; now rewrite HT).
    rewrite Hm, HT.
    destruct (dict_get g cd) as [ws|] eqn:Hg.
    + assert (Hmg : dict_mem g cd = true) by (unfold dict_mem; now rewrite Hg).
      now rewrite Hmg, Hg.
    + assert (Hmg : dict_mem g cd = false) by (unfold dict_mem; now rewrite Hg).
      rewrite Hmg, dict_get_set_same, dict_set_set. reflexivity.
  - assert (Hm : dict_mem T pd = false) by (unfold dict_mem; now rewrite HT).
    rewrite Hm, dict_get_set_same. cbn [dict_mem dict_get dict_set].
    rewrite String.eqb_refl. now rewrite dict_set_set.
Qed.

Lemma grouped_add (seen : list Row) (pd : dict (dict (list Word))) (record : Row) :
  grouped seen pd -> grouped (seen ++ [record]) (add_record pd record).
Proof.
  intros [Hkeys Htags Hwords Hne]. rewrite add_record_eq.
  set (T := bucket_key record). set (g := row_content_tag record).
  assert (Hafter : forall g',
             dict_get g' (bucket_after pd record)
             = if String.eqb g' g
               then Some (words_at pd T g ++ [word_of record])
               else match dict_get T pd with
                    | Some cd => dict_get g' cd
                    | None => None
                    end).
  { intros g'. unfold bucket_after. fold T g.
    destruct (String.eqb_spec g' g) as [->|Hgg].
    - apply dict_get_set_same.
    - rewrite dict_get_set_other by assumption.
      now destruct (dict_get T pd). }
  split.
  - now apply dict_set_NoDup.
  - intros T' cd'. destruct (String.eqb_spec T' T) as [->|HTT].
    + rewrite dict_get_set_same. intros [= <-].
      unfold bucket_after. apply dict_set_NoDup. fold T.
      destruct (dict_get T pd) as [cd|] eqn:HT; [eauto | constructor].
    + rewrite dict_get_set_other by assumption. apply Htags.
  - intros T' g'. rewrite filter_app, map_app, <- Hwords.
    unfold words_at at 1. cbn [filter]. unfold in_bucket. fold T g.
    destruct (String.eqb_spec T' T) as [->|HTT].
    + rewrite dict_get_set_same, Hafter, String.eqb_refl. cbn [andb].
      rewrite (String.eqb_sym g g').
      destruct (String.eqb_spec g' g) as [->|Hgg]; [reflexivity|].
      cbn [map]. rewrite app_nil_r. unfold words_at.
      now destruct (dict_get T pd).
    + rewrite dict_get_set_other by assumption.
      rewrite (String.eqb_sym T T').
      destruct (String.eqb_spec T' T); [contradiction|].
      cbn [andb map]. now rewrite app_nil_r.
  - intros T' cd' g' ws. destruct (String.eqb_spec T' T) as [->|HTT].
    + rewrite dict_get_set_same. intros [= <-]. rewrite Hafter.
      destruct (String.eqb_spec g' g) as [->|Hgg].
      * intros [= <-]. now destruct (words_at pd T g).
      * destruct (dict_get T pd) as [cd|] eqn:HT; [|discriminate].
        now apply (Hne T cd).
    + rewrite dict_get_set_other by assumption. apply Hne.
Qed.

Lemma grouped_fold (rows seen : list Row) (pd : dict (dict (list Word))) :
  grouped seen pd -> grouped (seen ++ rows) (fold_left add_record rows pd).
Proof.
  revert seen pd. induction rows as [|r rows IH]; intros seen pd H; simpl.
  - now rewrite app_nil_r.
  - replace (seen ++ r :: rows) with ((seen ++ [r]) ++ rows)
      by now rewrite <- app_assoc.
    apply IH. now apply grouped_add.
Qed.

Lemma group_records_grouped (raw_data : list Row) :
  grouped raw_data (group_records raw_data).
Proof. apply (grouped_fold raw_data [] []), grouped_nil. Qed.

(** ** The sorts used by [get_rank] *)

Lemma sort_by_count_desc_sorted (ws : list Word) :
  StronglySorted count_desc (sort_by_count_desc ws).
Proof.
  assert (H : StronglySorted (le_rel count_ge) (sort_by_count_desc ws)).
  { apply stable_sort_strongly; unfold count_ge; intros; lia. }
  revert H. generalize (sort_by_count_desc ws).
  induction 1 as [|x l Hl IH Hx]; constructor; auto.
  eapply Forall_impl; [|exact Hx].
  unfold le_rel, count_ge, count_desc. intros; lia.
Qed.

Lemma sort_by_count_desc_perm (ws : list Word) :
  Permutation ws (sort_by_count_desc ws).
Proof. apply stable_sort_perm. Qed.

(** Words with the same count leave the sort in the order they entered. *)
Lemma sort_by_count_desc_stable (ws : list Word) (c : Z) :
  filter (fun w => occurrence_count w =? c) (sort_by_count_desc ws)
  = filter (fun w => occurrence_count w =? c) ws.
Proof.
  apply stable_sort_filter. unfold count_ge. intros; lia.
Qed.

Lemma sorted_items_sorted {V : Type} (d : dict V) :
  StronglySorted key_le_rel (sorted_items d).
Proof.
  apply (stable_sort_strongly (@key_le V)); unfold key_le.
  - intros x y H. destruct (String.leb_total (fst x) (fst y)); congruence.
  - intros x y z. apply str_le_trans.
Qed.

Lemma sorted_items_In {V : Type} (d : dict V) (item : string * V) :
  In item (sorted_items d) <-> In item d.
Proof. apply stable_sort_In. Qed.

(** ** What [get_rank] emits *)

Lemma collect_entries_In (tag : option string)
    (items : list (string * dict (list Word))) (d : dict value) :
  In d (collect_entries tag items) ->
  exists item, In item items /\ bucket_entry tag item = Some d.
Proof.
  induction items as [|item items IH]; simpl; [tauto|].
  destruct (bucket_entry tag item) as [d'|] eqn:E.
  - intros [<-|Hin].
    + exists item. auto.
    + destruct (IH Hin) as (it & ? & ?). exists it. auto.
  - intros Hin. destruct (IH Hin) as (it & ? & ?). exists it. auto.
Qed.

Lemma rank_result_emitted (tag : option string) (rows : list Row) (d : dict value) :
  In d (rank_result tag rows) ->
  exists T key ws, emitted_from tag rows T key ws d.
Proof.
  unfold rank_result. intros Hin.
  apply collect_entries_In in Hin. destruct Hin as ([T cd] & Hitem & Hentry).
  apply (proj1 (sorted_items_In _ _)) in Hitem.
  apply In_dict_get in Hitem; [|apply (group_records_grouped rows)].
  unfold bucket_entry in Hentry.
  destruct (selected_words tag cd) as [[key ws]|] eqn:Hsel; [|discriminate].
  injection Hentry as <-. exists T, key, ws, cd. auto.
Qed.

(** The only word list in an output dictionary is the one stored last. *)
Lemma timestamp_data_words (T key k : string) (es es' : list Word) :
  dict_get k (timestamp_data_of T key es) = Some (VWords es') -> es' = es.
Proof.
  unfold timestamp_data_of. cbn [dict_set].
  destruct (String.eqb key "timestamp"); cbn [dict_get].
  - destruct (String.eqb k "timestamp"); congruence.
  - destruct (String.eqb k "timestamp"); [congruence|].
    destruct (String.eqb k key); congruence.
Qed.

Lemma timestamp_data_timestamp (T key : string) (es : list Word) :
  key <> "timestamp"%string ->
  dict_get "timestamp" (timestamp_data_of T key es) = Some (VStr T).
Proof.
  intros Hne. unfold timestamp_data_of.
  rewrite dict_get_set_other by congruence. reflexivity.
Qed.

Lemma timestamp_data_timestamp_inv (T key s : string) (es : list Word) :
  dict_get "timestamp" (timestamp_data_of T key es) = Some (VStr s) -> s = T.
Proof.
  unfold timestamp_data_of. cbn [dict_set].
  destruct (String.eqb key "timestamp"); cbn [dict_get String.eqb Ascii.eqb Bool.eqb];
    congruence.
Qed.

(** The key the words are stored under. *)
Lemma selected_words_key (tag : option string) (cd : dict (list Word))
    (key : string) (ws : list Word) :
  selected_words tag cd = Some (key, ws) ->
  match truthy tag with
  | Some t => key = t /\ dict_get t cd = Some ws
  | None => key = "total"%string /\ ws = concat (dict_values cd)
  end.
Proof.
  unfold selected_words. destruct (truthy tag) as [t|].
  - destruct (dict_get t cd); [|discriminate]. intros [= <- <-]. auto.
  - intros [= <- <-]. auto.
Qed.

(** Every selected word is the word of a row of that bucket; with a
    requested tag, of a row with that tag. *)
Lemma selected_words_sound (tag : option string) (rows : list Row)
    (T key : string) (cd : dict (list Word)) (ws : list Word) (w : Word) :
  dict_get T (group_records rows) = Some cd ->
  selected_words tag cd = Some (key, ws) ->
  In w ws ->
  exists r, In r rows /\ bucket_key r = T /\ word_of r = w /\
            forall t, truthy tag = Some t -> row_content_tag r = t.
Proof.
  intros HT Hsel Hw.
  pose proof (group_records_grouped rows) as G.
  assert (Hat : forall g wsg, dict_get g cd = Some wsg -> In w wsg ->
                exists r, In r rows /\ bucket_key r = T /\ word_of r = w /\
                          row_content_tag r = g).
  { intros g wsg Hg Hin.
    pose proof (grouped_words _ _ G T g) as Hws.
    unfold words_at in Hws. rewrite HT, Hg in Hws. subst wsg.
    apply in_map_iff in Hin. destruct Hin as (r & Hr & Hin).
    apply filter_In in Hin. destruct Hin as [Hin Hb].
    unfold in_bucket in Hb. apply andb_true_iff in Hb. destruct Hb as [Hb1 Hb2].
    apply String.eqb_eq in Hb1, Hb2. exists r. auto. }
  apply selected_words_key in Hsel.
  destruct (truthy tag) as [t|].
  - destruct Hsel as [-> Hg]. destruct (Hat t ws Hg Hw) as (r & ? & ? & ? & ?).
    exists r. repeat split; auto. intros t' [= <-]. assumption.
  - destruct Hsel as [-> ->].
    apply in_concat in Hw. destruct Hw as (wsg & Hwsg & Hin).
    unfold dict_values in Hwsg. apply in_map_iff in Hwsg.
    destruct Hwsg as ([g wsg'] & Heq & Hcd). simpl in Heq. subst wsg'.
    apply In_dict_get in Hcd; [|apply (grouped_tags _ _ G T cd HT)].
    destruct (Hat g wsg Hcd Hin) as (r & ? & ? & ? & ?).
    exists r. repeat split; auto. discriminate.
Qed.

Lemma top_words_nonempty (ws : list Word) : ws <> [] -> top_words ws <> [].
Proof.
  destruct ws as [|w ws]; [congruence|]. intros _.
  rewrite top_words_spec. discriminate.
Qed.

Lemma sort_by_count_desc_nonempty (ws : list Word) :
  ws <> [] -> sort_by_count_desc ws <> [].
Proof.
  intros Hne Hnil. apply Hne.
  apply Permutation_nil. rewrite <- Hnil.
  apply Permutation_sym, sort_by_count_desc_perm.
Qed.

(** ** The handlers on the path that reaches the aggregation *)

Lemma get_rank_Return (env : Env) (start_time end_time : string)
    (tag : option string) (rows : list Row) (out : list (dict value)) :
  fetched_rows env start_time end_time rows ->
  get_rank env start_time end_time tag = Return out ->
  rows <> [] /\ out = rank_result tag rows.
Proof.
  intros (s & e & Hw & Hf). unfold get_rank, call_fetch.
  rewrite Hw. cbn [bind]. rewrite Hf. cbn [bind].
  destruct rows; cbn [except_ConnectionError]; [discriminate|].
  intros [= <-]. split; [discriminate | reflexivity].
Qed.

Lemma get_rank_Return_inv (env : Env) (start_time end_time : string)
    (tag : option string) (out : list (dict value)) :
  get_rank env start_time end_time tag = Return out ->
  exists rows, fetched_rows env start_time end_time rows /\
               rows <> [] /\ out = rank_result tag rows.
Proof.
  unfold get_rank, call_fetch, fetched_rows.
  destruct (time_window env start_time end_time) as [[s e]|c dt|[]] eqn:Hw;
    cbn [bind except_ConnectionError]; try discriminate.
  destruct (fetch_word_corrections_from_db env s e) as [|rows|[]] eqn:Hf;
    cbn [bind except_ConnectionError]; try discriminate.
  destruct rows as [|r rows]; [discriminate|].
  intros [= <-]. exists (r :: rows). repeat split; eauto. discriminate.
Qed.

Lemma get_rank_emitted (env : Env) (start_time end_time : string)
    (tag : option string) (rows : list Row) (out : list (dict value))
    (d : dict value) :
  fetched_rows env start_time end_time rows ->
  get_rank env start_time end_time tag = Return out ->
  In d out ->
  exists T key ws, emitted_from tag rows T key ws d.
Proof.
  intros Hf Hr Hin. destruct (get_rank_Return _ _ _ _ _ _ Hf Hr) as [_ ->].
  now apply rank_result_emitted.
Qed.

Lemma NoDup_map_eq {A B : Type} (f : A -> B) (l : list A) (x y : A) :
  NoDup (map f l) -> In x l -> In y l -> f x = f y -> x = y.
Proof.
  induction l as [|a l IH]; simpl; [tauto|].
  intros Hnd Hx Hy Heq. inversion Hnd as [|? ? Ha Hnd']; subst.
  destruct Hx as [->|Hx], Hy as [->|Hy]; auto.
  - exfalso. apply Ha. rewrite Heq. now apply in_map.
  - exfalso. apply Ha. rewrite <- Heq. now apply in_map.
Qed.

(** ** The sample requests reach the aggregation *)

Lemma sample_fetched :
  fetched_rows Sample.env Sample.start Sample.stop Sample.rows.
Proof. eexists _, _. split; reflexivity. Defined.

Lemma sample_fetched_sports :
  fetched_rows Sample.env_sports Sample.start Sample.stop Sample.rows_sports.
Proof. eexists _, _. split; reflexivity. Defined.

Lemma sample_fetched_empty :
  fetched_rows Sample.env_empty Sample.start Sample.stop [].
Proof. eexists _, _. split; reflexivity. Defined.

Lemma sample_fetched_many : fetched_rows Sample.env_many "" "" Sample.many.
Proof. eexists _, _. split; reflexivity. Defined.

Example sample_get_rank_total :
  get_rank Sample.env Sample.start Sample.stop None
  = Return [Sample.total_04; Sample.total_05].
Proof. reflexivity. Qed.

Example sample_get_rank_webtoon :
  get_rank Sample.env Sample.start Sample.stop (Some "webtoon"%string)
  = Return [Sample.webtoon_04].
Proof. reflexivity. Qed.

Example sample_get_rank_empty_tag_is_total :
  get_rank Sample.env Sample.start Sample.stop (Some ""%string)
  = Return [Sample.total_04; Sample.total_05].
Proof. reflexivity. Qed.

(** ** Ranking: de-duplication, truncation, omission, soundness *)

(** C1.  Every word list emitted by [get_rank] holds no rank twice, and
    it is the list of the first words per rank, in the scan order of the
    bucket's words sorted by descending count, cut after ten: a kept word
    is the first word of the scan with its rank, two kept words with the
    same rank are the same word, and a word that first occurs in the scan
    after a word of the same rank is dropped, whatever its word pair is. *)
Theorem get_rank_rank_dedup (env : Env) (start_time end_time : string)
    (tag : option string) (rows : list Row) (out : list (dict value))
    (d : dict value) (k : string) (es : list Word) :
  fetched_rows env start_time end_time rows ->
  get_rank env start_time end_time tag = Return out ->
  In d out ->
  dict_get k d = Some (VWords es) ->
  NoDup (map rank es) /\
  exists T key ws,
    emitted_from tag rows T key ws d /\
    let scan := sort_by_count_desc ws in
    StronglySorted count_desc scan /\
    Permutation ws scan /\
    es = firstn 10 (keep_first_per_rank [] scan) /\
    (forall w, In w es ->
       exists before after,
         scan = before ++ w :: after /\
         forall x, In x before -> rank x <> rank w) /\
    (forall w1 w2, In w1 es -> In w2 es -> rank w1 = rank w2 -> w1 = w2) /\
    (forall before w after,
       scan = before ++ w :: after -> ~ In w before ->
       (exists x, In x before /\ rank x = rank w) ->
       ~ In w es).
Proof.
  intros Hf Hr Hd Hk.
  destruct (get_rank_emitted _ _ _ _ _ _ _ Hf Hr Hd) as (T & key & ws & Hem).
  pose proof Hem as (cd & HT & Hsel & ->).
  apply timestamp_data_words in Hk. subst es.
  split; [apply top_words_NoDup|].
  exists T, key, ws. split; [exact Hem|]. cbv zeta.
  split; [apply sort_by_count_desc_sorted|].
  split; [apply sort_by_count_desc_perm|].
  split; [apply top_words_spec|].
  split; [apply top_words_is_first|].
  split; [intros w1 w2; apply NoDup_map_eq, top_words_NoDup|].
  intros before w after. apply top_words_drops_later.
Qed.

Lemma get_rank_rank_dedup_witness :
  NoDup (map rank [Sample.w_gomgomhi; Sample.w_yeokhwal]) /\
  exists T key ws,
    emitted_from None Sample.rows T key ws Sample.total_04 /\
    let scan := sort_by_count_desc ws in
    StronglySorted count_desc scan /\
    Permutation ws scan /\
    [Sample.w_gomgomhi; Sample.w_yeokhwal]
    = firstn 10 (keep_first_per_rank [] scan) /\
    (forall w, In w [Sample.w_gomgomhi; Sample.w_yeokhwal] ->
       exists before after,
         scan = before ++ w :: after /\
         forall x, In x before -> rank x <> rank w) /\
    (forall w1 w2,
       In w1 [Sample.w_gomgomhi; Sample.w_yeokhwal] ->
       In w2 [Sample.w_gomgomhi; Sample.w_yeokhwal] ->
       rank w1 = rank w2 -> w1 = w2) /\
    (forall before w after,
       scan = before ++ w :: after -> ~ In w before ->
       (exists x, In x before /\ rank x = rank w) ->
       ~ In w [Sample.w_gomgomhi; Sample.w_yeokhwal]).
Proof.
  apply (get_rank_rank_dedup Sample.env Sample.start Sample.stop None
           Sample.rows [Sample.total_04; Sample.total_05] Sample.total_04
           "total"%string).
  - exact sample_fetched.
  - reflexivity.
  - simpl. auto.
  - reflexivity.
Defined.

(** C2.  With or without a requested tag, every word list emitted by
    [get_rank], under whatever key, has at most ten elements. *)
Theorem get_rank_at_most_ten (env : Env) (start_time end_time : string)
    (tag : option string) (rows : list Row) (out : list (dict value))
    (d : dict value) (k : string) (es : list Word) :
  fetched_rows env start_time end_time rows ->
  get_rank env start_time end_time tag = Return out ->
  In d out ->
  dict_get k d = Some (VWords es) ->
  (length es <= 10)%nat.
Proof.
  intros Hf Hr Hd Hk.
  destruct (get_rank_emitted _ _ _ _ _ _ _ Hf Hr Hd)
    as (T & key & ws & cd & _ & _ & ->).
  apply timestamp_data_words in Hk. subst es. apply top_words_length.
Qed.

(** Twelve rows with twelve ranks under one tag leave ten words. *)
Lemma get_rank_at_most_ten_witness :
  length Sample.top_many = 10%nat /\ (length Sample.top_many <= 10)%nat.
Proof.
  split; [reflexivity|].
  apply (get_rank_at_most_ten Sample.env_many "" "" (Some "news"%string)
           Sample.many [Sample.news_many] Sample.news_many "news"%string).
  - exact sample_fetched_many.
  - vm_compute. reflexivity.
  - left; reflexivity.
  - vm_compute. reflexivity.
Defined.

(** C4.  With a requested tag, a bucket without a row of that tag leaves
    no dictionary in the output: each output dictionary is the one of a
    bucket that has such a row, its word list is not empty, no output
    dictionary carries the timestamp of a bucket without such a row, and
    when no row has the tag the result is the empty list. *)
Theorem get_rank_tag_omission (env : Env) (start_time end_time : string)
    (t : string) (rows : list Row) (out : list (dict value)) :
  t <> EmptyString ->
  fetched_rows env start_time end_time rows ->
  get_rank env start_time end_time (Some t) = Return out ->
  (forall d, In d out ->
     exists T ws r,
       emitted_from (Some t) rows T t ws d /\
       In r rows /\ bucket_key r = T /\ row_content_tag r = t) /\
  (forall d k es, In d out -> dict_get k d = Some (VWords es) -> es <> []) /\
  (forall T,
     (forall r, In r rows -> bucket_key r = T -> row_content_tag r <> t) ->
     forall d, In d out -> dict_get "timestamp" d <> Some (VStr T)) /\
  ((forall r, In r rows -> row_content_tag r <> t) -> out = []).
Proof.
  intros Ht Hf Hr.
  assert (Htruthy : truthy (Some t) = Some t) by (destruct t; [exfalso; now apply Ht | reflexivity]).
  assert (Hmain : forall d, In d out ->
            exists T ws r,
              emitted_from (Some t) rows T t ws d /\ ws <> [] /\
              In r rows /\ bucket_key r = T /\ row_content_tag r = t).
  { intros d Hd.
    destruct (get_rank_emitted _ _ _ _ _ _ _ Hf Hr Hd) as (T & key & ws & Hem).
    pose proof Hem as (cd & HT & Hsel & Hdeq).
    pose proof (selected_words_key _ _ _ _ Hsel) as Hkey.
    rewrite Htruthy in Hkey. destruct Hkey as [-> Hg].
    assert (Hne : ws <> [])
      by exact (grouped_nonempty _ _ (group_records_grouped rows) T cd t ws HT Hg).
    destruct ws as [|w ws]; [congruence|].
    destruct (selected_words_sound _ _ _ _ _ _ w HT Hsel (or_introl eq_refl))
      as (r & Hin & Hb & _ & Htag).
    exists T, (w :: ws), r. repeat split; auto. }
  split; [|split; [|split]].
  - intros d Hd. destruct (Hmain d Hd) as (T & ws & r & ? & _ & ? & ? & ?).
    exists T, ws, r. auto.
  - intros d k es Hd Hk.
    destruct (Hmain d Hd) as (T & ws & r & (cd & _ & _ & ->) & Hne & _).
    apply timestamp_data_words in Hk. subst es.
    now apply top_words_nonempty, sort_by_count_desc_nonempty.
  - intros T Habs d Hd Hts.
    destruct (Hmain d Hd) as (T' & ws & r & (cd & _ & _ & ->) & _ & Hin & Hb & Htag).
    apply timestamp_data_timestamp_inv in Hts. subst T'.
    exact (Habs r Hin Hb Htag).
  - intros Habs. destruct out as [|d out]; [reflexivity|].
    destruct (Hmain d (or_introl eq_refl)) as (_ & _ & r & _ & _ & Hin & _ & Htag).
    destruct (Habs r Hin Htag).
Qed.

(** Tag "webtoon" occurs in bucket 04:00 only; tag "sports" nowhere. *)
Lemma get_rank_tag_omission_witness :
  (forall d, In d [Sample.webtoon_04] ->
     exists T ws r,
       emitted_from (Some "webtoon"%string) Sample.rows T "webtoon" ws d /\
       In r Sample.rows /\ bucket_key r = T /\
       row_content_tag r = "webtoon"%string) /\
  (forall d k es, In d [Sample.webtoon_04] ->
     dict_get k d = Some (VWords es) -> es <> []) /\
  (forall T,
     (forall r, In r Sample.rows -> bucket_key r = T ->
                row_content_tag r <> "webtoon"%string) ->
     forall d, In d [Sample.webtoon_04] ->
               dict_get "timestamp" d <> Some (VStr T)) /\
  ((forall r, In r Sample.rows -> row_content_tag r <> "webtoon"%string) ->
   [Sample.webtoon_04] = []).
Proof.
  apply (get_rank_tag_omission Sample.env Sample.start Sample.stop
           "webtoon"%string Sample.rows [Sample.webtoon_04]).
  - discriminate.
  - exact sample_fetched.
  - reflexivity.
Defined.

(** C10.  Every word of every list emitted by [get_rank] is the word of
    an input row: the output dictionary belongs to one bucket [T] (its
    timestamp field, where it holds a string, is [T]), and each word in
    it has the four field values of one row whose formatted timestamp is
    [T] and whose tag is the requested tag, if one was requested. *)
Theorem get_rank_sound (env : Env) (start_time end_time : string)
    (tag : option string) (rows : list Row) (out : list (dict value))
    (d : dict value) :
  fetched_rows env start_time end_time rows ->
  get_rank env start_time end_time tag = Return out ->
  In d out ->
  exists T,
    (forall s, dict_get "timestamp" d = Some (VStr s) -> s = T) /\
    (truthy tag <> Some "timestamp"%string ->
     dict_get "timestamp" d = Some (VStr T)) /\
    forall k es E,
      dict_get k d = Some (VWords es) -> In E es ->
      exists r,
        In r rows /\
        strftime (row_timestamp r) = T /\
        row_incorrect_word r = incorrect_word E /\
        row_correct_word r = correct_word E /\
        row_occurrence_count r = occurrence_count E /\
        row_rank r = rank E /\
        (forall t, truthy tag = Some t -> row_content_tag r = t).
Proof.
  intros Hf Hr Hd.
  destruct (get_rank_emitted _ _ _ _ _ _ _ Hf Hr Hd)
    as (T & key & ws & cd & HT & Hsel & ->).
  exists T. split; [|split].
  - intros s. apply timestamp_data_timestamp_inv.
  - intros Hne. apply timestamp_data_timestamp.
    pose proof (selected_words_key _ _ _ _ Hsel) as Hkey.
    destruct (truthy tag) as [t|]; destruct Hkey as [-> _];
      [|discriminate].
    intros ->. now apply Hne.
  - intros k es E Hk HE.
    apply timestamp_data_words in Hk. subst es.
    assert (Hin : In E ws).
    { apply (stable_sort_In count_ge).
      eapply subseq_In; [apply top_words_subseq | exact HE]. }
    destruct (selected_words_sound _ _ _ _ _ _ E HT Hsel Hin)
      as (r & Hr1 & Hr2 & Hr3 & Hr4).
    exists r. subst E. repeat split; auto.
Qed.

Lemma get_rank_sound_witness :
  exists T,
    (forall s, dict_get "timestamp" Sample.news_04 = Some (VStr s) -> s = T) /\
    (truthy (Some "news"%string) <> Some "timestamp"%string ->
     dict_get "timestamp" Sample.news_04 = Some (VStr T)) /\
    forall k es E,
      dict_get k Sample.news_04 = Some (VWords es) -> In E es ->
      exists r,
        In r Sample.rows /\
        strftime (row_timestamp r) = T /\
        row_incorrect_word r = incorrect_word E /\
        row_correct_word r = correct_word E /\
        row_occurrence_count r = occurrence_count E /\
        row_rank r = rank E /\
        (forall t, truthy (Some "news"%string) = Some t -> row_content_tag r = t).
Proof.
  apply (get_rank_sound Sample.env Sample.start Sample.stop
           (Some "news"%string) Sample.rows
           [Sample.news_04; [("timestamp"%string, VStr "2023-08-28 05:00:00"%string);
                             ("news"%string, VWords [Sample.w_gutsi])]]).
  - exact sample_fetched.
  - reflexivity.
  - left; reflexivity.
Defined.

(** ** Ranking: order of the output *)

Lemma bucket_entry_timestamp (tag : option string) (T : string)
    (cd : dict (list Word)) (d : dict value) :
  truthy tag <> Some "timestamp"%string ->
  bucket_entry tag (T, cd) = Some d ->
  dict_get "timestamp" d = Some (VStr T).
Proof.
  intros Hne. unfold bucket_entry.
  destruct (selected_words tag cd) as [[key ws]|] eqn:Hsel; [|discriminate].
  intros [= <-]. apply timestamp_data_timestamp.
  apply selected_words_key in Hsel.
  destruct (truthy tag) as [t|]; destruct Hsel as [-> _]; [|discriminate].
  intros ->. now apply Hne.
Qed.

Lemma collect_entries_sorted (tag : option string)
    (items : list (string * dict (list Word))) :
  truthy tag <> Some "timestamp"%string ->
  StronglySorted key_le_rel items ->
  StronglySorted timestamp_le (collect_entries tag items).
Proof.
  intros Hne.
  induction 1 as [|[T cd] items Hs IH Hall]; cbn [collect_entries]; [constructor|].
  destruct (bucket_entry tag (T, cd)) as [d|] eqn:E; [|exact IH].
  constructor; [exact IH|].
  apply Forall_forall. intros d' Hd'.
  apply collect_entries_In in Hd'. destruct Hd' as ([T' cd'] & Hin & E').
  rewrite Forall_forall in Hall. specialize (Hall _ Hin).
  exists T, T'. repeat split; eauto using bucket_entry_timestamp.
Qed.

(** Unless the requested tag is the string "timestamp", the timestamp
    fields of the output ascend. *)
Lemma rank_result_timestamps_ascending (tag : option string) (rows : list Row) :
  truthy tag <> Some "timestamp"%string ->
  StronglySorted timestamp_le (rank_result tag rows).
Proof.
  intros Hne. apply collect_entries_sorted; [assumption|].
  apply sorted_items_sorted.
Qed.

(** The counts of an emitted list descend, and words with equal counts
    stand in the order they had in the selected words. *)
Lemma top_words_descending_stable (ws : list Word) :
  let es := top_words (sort_by_count_desc ws) in
  StronglySorted count_desc es /\
  forall c, subseq (filter (fun w => occurrence_count w =? c) es)
                   (filter (fun w => occurrence_count w =? c) ws).
Proof.
  cbv zeta. split.
  - eapply subseq_strongly_sorted;
      [apply top_words_subseq | apply sort_by_count_desc_sorted].
  - intros c. rewrite <- (sort_by_count_desc_stable ws c).
    apply subseq_filter, top_words_subseq.
Qed.

(** C3.  The timestamp field of an output dictionary is meant to hold
    the bucket's timestamp string, ascending along the output.  A request
    for the tag "timestamp" stores the word list under that very key:
    with two buckets that have rows of this tag, the timestamp field of
    either output dictionary is a word list, not a string, and the
    timestamp fields of the two consecutive entries are in no
    lexicographic order.  (For every other tag the order holds, see
    [rank_result_timestamps_ascending] and [top_words_descending_stable].) *)
Theorem get_rank_timestamp_tag_overwrites :
  get_rank Sample.env_timestamp "" "" (Some "timestamp"%string)
  = Return Sample.out_timestamp /\
  map (dict_get "timestamp") Sample.out_timestamp
  = [Some (VWords [mkWord "a" "b" 5 1]); Some (VWords [mkWord "c" "d" 7 1])] /\
  ~ Sorted timestamp_le Sample.out_timestamp.
Proof.
  split; [vm_compute; reflexivity|].
  split; [reflexivity|].
  intros H. inversion H as [|? ? _ Hhd]; subst.
  inversion Hhd as [|? ? (s1 & s2 & H1 & _)]; subst.
  vm_compute in H1. discriminate.
Qed.

(** ** The mention pipeline of [get_word_tags] *)

Lemma get_word_tags_fetched (env : Env) (start_time end_time search_word : string)
    (rows : list Row) :
  fetched_rows env start_time end_time rows ->
  get_word_tags env start_time end_time search_word
  = except_ConnectionError (mention_result search_word rows).
Proof.
  intros (s & e & Hw & Hf). unfold get_word_tags, call_fetch.
  rewrite Hw. cbn [bind]. rewrite Hf. reflexivity.
Qed.

Lemma add_to_key_channel (content_tag : string) (n : Z) (s : Summary) :
  is_channel content_tag = true ->
  exists s', add_to_key content_tag n s = Return s' /\
             m_total s' = m_total s /\
             m_news s' + m_webtoon s' + m_youtube s'
             = m_news s + m_webtoon s + m_youtube s + n.
Proof.
  unfold is_channel, add_to_key. intros H.
  destruct (String.eqb_spec content_tag "total") as [->|_]; [discriminate|].
  destruct (String.eqb content_tag "news");
    [eexists; split; [reflexivity|]; simpl; lia|].
  destruct (String.eqb content_tag "webtoon");
    [eexists; split; [reflexivity|]; simpl; lia|].
  destruct (String.eqb content_tag "youtube");
    [eexists; split; [reflexivity|]; simpl; lia|].
  discriminate.
Qed.

Lemma add_to_key_counter (content_tag : string) (n : Z) (s : Summary) :
  is_counter content_tag = true -> exists s', add_to_key content_tag n s = Return s'.
Proof.
  unfold is_counter, is_channel, add_to_key. intros H.
  destruct (String.eqb content_tag "total"); [eauto|].
  destruct (String.eqb content_tag "news"); [eauto|].
  destruct (String.eqb content_tag "webtoon"); [eauto|].
  destruct (String.eqb content_tag "youtube"); [eauto|].
  discriminate.
Qed.

Lemma add_to_key_foreign (content_tag : string) (n : Z) (s : Summary) :
  is_summary_key content_tag = false ->
  add_to_key content_tag n s = Uncaught (KeyError content_tag).
Proof.
  unfold is_summary_key, is_counter, is_channel, add_to_key. intros H.
  destruct (String.eqb content_tag "total"); [discriminate|].
  destruct (String.eqb content_tag "news"); [discriminate|].
  destruct (String.eqb content_tag "webtoon"); [discriminate|].
  destruct (String.eqb content_tag "youtube"); [discriminate|].
  cbn [orb] in H. now rewrite H.
Qed.

Lemma note_words_counts (search_word : string) (record : Row) (s : Summary) :
  let s' := note_words search_word record s in
  m_total s' = m_total s /\ m_news s' = m_news s /\
  m_webtoon s' = m_webtoon s /\ m_youtube s' = m_youtube s.
Proof.
  unfold note_words.
  destruct (String.eqb search_word (row_incorrect_word record)
            || String.eqb search_word (row_correct_word record)); simpl; auto.
Qed.

(** The summary a round starts from is a stored one or a fresh one. *)
Lemma mention_step_start (search_word : string) (mention_counts : dict Summary)
    (T : string) :
  let mc := if dict_mem T mention_counts then mention_counts
            else dict_set T (new_summary search_word) mention_counts in
  let s := match dict_get T mc with
           | Some s => s
           | None => new_summary search_word
           end in
  (s = new_summary search_word \/ In (T, s) mention_counts) /\
  dict_mem T mc = true /\
  dict_keys mc = (if dict_mem T mention_counts then dict_keys mention_counts
                  else dict_keys mention_counts ++ [T]) /\
  forall T' s', In (T', s') mc ->
                s' = new_summary search_word \/ In (T', s') mention_counts.
Proof.
  cbv zeta. destruct (dict_mem T mention_counts) eqn:Hm; unfold dict_mem in Hm.
  - destruct (dict_get T mention_counts) as [s0|] eqn:HT; [|discriminate].
    split; [right; now apply dict_get_In|].
    split; [unfold dict_mem; now rewrite HT|].
    split; auto.
  - destruct (dict_get T mention_counts) as [s0|] eqn:HT; [discriminate|].
    rewrite dict_get_set_same.
    split; [now left|].
    split; [unfold dict_mem; now rewrite dict_get_set_same|].
    split; [rewrite dict_keys_set; unfold dict_mem; now rewrite HT|].
    intros T' s' Hin. apply dict_set_In in Hin.
    destruct Hin as [[_ ->]|Hin]; auto.
Qed.

Lemma balanced_new (search_word : string) : balanced (new_summary search_word).
Proof. reflexivity. Qed.

(** One round keeps every bucket's total equal to the sum of its three
    channel counters: the count goes to one channel and to the total. *)
Lemma mention_step_balanced (search_word : string) (mention_counts : dict Summary)
    (record : Row) :
  is_channel (row_content_tag record) = true ->
  all_balanced mention_counts ->
  exists mention_counts',
    mention_step search_word mention_counts record = Return mention_counts' /\
    all_balanced mention_counts'.
Proof.
  intros Hch Hbal. unfold mention_step.
  set (T := strftime (row_timestamp record)).
  destruct (mention_step_start search_word mention_counts T)
    as (Hs & _ & _ & Hmc).
  cbv zeta in Hs, Hmc.
  set (mc := if dict_mem T mention_counts then mention_counts
             else dict_set T (new_summary search_word) mention_counts) in *.
  set (s := match dict_get T mc with
            | Some s => s
            | None => new_summary search_word
            end) in *.
  assert (Hbs : balanced s)
    by (destruct Hs as [->|Hin]; [apply balanced_new | exact (Hbal _ _ Hin)]).
  destruct (add_to_key_channel _ (row_occurrence_count record) s Hch)
    as (s' & -> & Htot & Hsum).
  cbn [bind]. eexists. split; [reflexivity|].
  intros T' s'' Hin. apply dict_set_In in Hin. destruct Hin as [[_ ->]|Hin].
  - unfold balanced in *.
    destruct (note_words_counts search_word record
                (add_total (row_occurrence_count record) s'))
      as (-> & -> & -> & ->).
    simpl. lia.
  - destruct (Hmc _ _ Hin) as [->|Hin']; [apply balanced_new | eauto].
Qed.

Lemma mention_loop_balanced (search_word : string) (rows : list Row)
    (mention_counts : dict Summary) :
  (forall r, In r rows -> is_channel (row_content_tag r) = true) ->
  all_balanced mention_counts ->
  exists mention_counts',
    mention_loop search_word mention_counts rows = Return mention_counts' /\
    all_balanced mention_counts'.
Proof.
  revert mention_counts.
  induction rows as [|r rows IH]; intros mc Hch Hbal; cbn [mention_loop].
  - eauto.
  - destruct (mention_step_balanced search_word mc r) as (mc1 & -> & Hbal1);
      [apply Hch; now left | assumption |].
    cbn [bind]. apply IH; [|assumption].
    intros r' Hr'. apply Hch. now right.
Qed.

(** ** Mention: the order of the buckets *)

Lemma filter_twice {A : Type} (p q : A -> bool) (l : list A) :
  filter p (filter q l) = filter (fun x => q x && p x) l.
Proof.
  induction l as [|x l IH]; simpl; [reflexivity|].
  destruct (q x); simpl; [|exact IH]. destruct (p x); now rewrite IH.
Qed.

Lemma first_seen_In (keys : list string) (k : string) :
  In k (first_seen keys) <-> In k keys.
Proof.
  induction keys as [|k0 keys IH]; simpl; [tauto|].
  rewrite filter_In, IH. destruct (String.eqb_spec k k0) as [->|Hne]; simpl.
  - tauto.
  - split; [tauto|]. intros [->|H]; [contradiction | auto].
Qed.

Lemma first_seen_NoDup (keys : list string) : NoDup (first_seen keys).
Proof.
  induction keys as [|k0 keys IH]; simpl; constructor.
  - rewrite filter_In, String.eqb_refl. intros [_ H]. discriminate.
  - now apply NoDup_filter.
Qed.

Lemma mention_step_keys (search_word : string) (mention_counts mention_counts' : dict Summary)
    (record : Row) :
  mention_step search_word mention_counts record = Return mention_counts' ->
  dict_keys mention_counts'
  = if dict_mem (bucket_key record) mention_counts then dict_keys mention_counts
    else dict_keys mention_counts ++ [bucket_key record].
Proof.
  unfold mention_step, bucket_key.
  set (T := strftime (row_timestamp record)).
  destruct (mention_step_start search_word mention_counts T)
    as (_ & Hmem & Hkeys & _).
  cbv zeta in Hmem, Hkeys.
  destruct (add_to_key _ _ _) as [s'| |]; cbn [bind]; try discriminate.
  intros [= <-]. rewrite dict_keys_set, Hmem. exact Hkeys.
Qed.

Lemma mention_loop_keys (search_word : string) (rows : list Row)
    (mention_counts mention_counts' : dict Summary) :
  mention_loop search_word mention_counts rows = Return mention_counts' ->
  dict_keys mention_counts'
  = dict_keys mention_counts
    ++ filter (absent (dict_keys mention_counts)) (first_seen (map bucket_key rows)).
Proof.
  revert mention_counts.
  induction rows as [|r rows IH]; intros mc; cbn [mention_loop map first_seen].
  - intros [= <-]. cbn [filter]. now rewrite app_nil_r.
  - destruct (mention_step search_word mc r) as [mc1| |] eqn:Hstep;
      cbn [bind]; try discriminate.
    intros Hloop. rewrite (IH _ Hloop).
    rewrite (mention_step_keys _ _ _ _ Hstep), dict_mem_keys.
    set (T := bucket_key r). set (K := dict_keys mc).
    set (FS := first_seen (map bucket_key rows)).
    cbn [filter].
    assert (HabsT : absent K T = negb (existsb (String.eqb T) K)) by reflexivity.
    destruct (existsb (String.eqb T) K) eqn:HT; rewrite HabsT; cbn [negb].
    + f_equal. rewrite filter_twice. apply filter_ext. intros k.
      destruct (String.eqb_spec k T) as [->|_]; [|reflexivity].
      unfold absent. now rewrite HT.
    + rewrite <- app_assoc. cbn [app]. do 2 f_equal.
      rewrite filter_twice. apply filter_ext. intros k.
      unfold absent. rewrite existsb_app. cbn [existsb].
      rewrite orb_false_r, negb_orb. apply andb_comm.
Qed.

Lemma mention_result_timestamps (search_word : string) (rows : list Row)
    (out : list MentionEntry) :
  mention_result search_word rows = Return out ->
  map entry_timestamp out = first_seen (map bucket_key rows).
Proof.
  unfold mention_result.
  destruct (mention_loop search_word [] rows) as [mc| |] eqn:Hloop;
    cbn [bind]; try discriminate.
  intros [= <-]. apply mention_loop_keys in Hloop. cbn [dict_keys map app] in Hloop.
  rewrite map_map.
  replace (map (fun x => entry_timestamp (let '(timestamp, tag_counts) := x in
                                          mkMentionEntry timestamp tag_counts)) mc)
    with (dict_keys mc)
    by (unfold dict_keys; apply map_ext; now intros [? ?]).
  rewrite Hloop. clear Hloop.
  induction (first_seen (map bucket_key rows)) as [|k l IH]; cbn [filter];
    [reflexivity|].
  unfold absent at 1. cbn [existsb negb]. now rewrite IH.
Qed.

Lemma except_ConnectionError_Return {A : Type} (o : outcome A) (a : A) :
  except_ConnectionError o = Return a -> o = Return a.
Proof. destruct o as [?|? ?|[]]; cbn; congruence. Qed.

(** ** Mention: faults *)

Lemma mention_loop_app (search_word : string) (rows1 rows2 : list Row)
    (mention_counts : dict Summary) :
  mention_loop search_word mention_counts (rows1 ++ rows2)
  = (mc <- mention_loop search_word mention_counts rows1 ;;
     mention_loop search_word mc rows2).
Proof.
  revert mention_counts.
  induction rows1 as [|r rows1 IH]; intros mc; cbn [app mention_loop bind];
    [reflexivity|].
  destruct (mention_step search_word mc r); cbn [bind]; auto.
Qed.

Lemma mention_step_counter (search_word : string) (mention_counts : dict Summary)
    (record : Row) :
  is_counter (row_content_tag record) = true ->
  exists mention_counts',
    mention_step search_word mention_counts record = Return mention_counts'.
Proof.
  intros Hc. unfold mention_step.
  match goal with
  | |- context [add_to_key ?t ?n ?s] =>
      destruct (add_to_key_counter t n s Hc) as (s' & ->)
  end.
  cbn [bind]. eauto.
Qed.

Lemma mention_loop_counters (search_word : string) (rows : list Row)
    (mention_counts : dict Summary) :
  (forall r, In r rows -> is_counter (row_content_tag r) = true) ->
  exists mention_counts',
    mention_loop search_word mention_counts rows = Return mention_counts'.
Proof.
  revert mention_counts.
  induction rows as [|r rows IH]; intros mc Hc; cbn [mention_loop]; [eauto|].
  destruct (mention_step_counter search_word mc r) as (mc1 & ->);
    [apply Hc; now left|].
  cbn [bind]. apply IH. intros r' Hr'. apply Hc. now right.
Qed.

Lemma mention_step_foreign (search_word : string) (mention_counts : dict Summary)
    (record : Row) :
  is_summary_key (row_content_tag record) = false ->
  mention_step search_word mention_counts record
  = Uncaught (KeyError (row_content_tag record)).
Proof.
  intros Hf. unfold mention_step.
  now rewrite add_to_key_foreign.
Qed.

(** ** Mention: totals, faults, order *)

(** C8.  A row whose tag is none of the keys of the bucket's dictionary
    makes [get_word_tags] fail with a [KeyError] on that tag, provided
    the rows before it could be counted; nothing is returned. *)
Theorem get_word_tags_unknown_tag_faults (env : Env)
    (start_time end_time search_word : string)
    (rows before after : list Row) (r : Row) :
  fetched_rows env start_time end_time rows ->
  rows = before ++ r :: after ->
  (forall x, In x before -> is_counter (row_content_tag x) = true) ->
  is_summary_key (row_content_tag r) = false ->
  is_channel (row_content_tag r) = false /\
  get_word_tags env start_time end_time search_word
  = Uncaught (KeyError (row_content_tag r)).
Proof.
  intros Hf -> Hbefore Hforeign. split.
  - unfold is_summary_key, is_counter in Hforeign.
    destruct (is_channel (row_content_tag r)); [|reflexivity].
    now rewrite orb_true_r in Hforeign.
  - rewrite (get_word_tags_fetched _ _ _ _ _ Hf). unfold mention_result.
    rewrite mention_loop_app.
    destruct (mention_loop_counters search_word before [] Hbefore) as (mc & ->).
    cbn [bind mention_loop]. rewrite mention_step_foreign by assumption.
    reflexivity.
Qed.

Lemma get_word_tags_unknown_tag_faults_witness :
  is_channel "sports" = false /\
  get_word_tags Sample.env_sports Sample.start Sample.stop "gutsi"
  = Uncaught (KeyError "sports").
Proof.
  apply (get_word_tags_unknown_tag_faults Sample.env_sports Sample.start
           Sample.stop "gutsi" Sample.rows_sports
           [mkRow Sample.h04 "gutsi" "gudi" "news" 31 1]
           [mkRow Sample.h05 "yeokhwal" "yeokhal" "webtoon" 28 1]
           (mkRow Sample.h04 "opsaid" "offside" "sports" 7 2)).
  - exact sample_fetched_sports.
  - reflexivity.
  - intros x [<-|[]]. reflexivity.
  - reflexivity.
Defined.

(** C9.  The result of [get_word_tags] has one entry per bucket key, in
    the order in which the keys first occur in the rows; nothing sorts
    them. *)
Theorem get_word_tags_first_seen_order (env : Env)
    (start_time end_time search_word : string)
    (rows : list Row) (out : list MentionEntry) :
  fetched_rows env start_time end_time rows ->
  get_word_tags env start_time end_time search_word = Return out ->
  map entry_timestamp out = first_seen (map bucket_key rows) /\
  NoDup (map entry_timestamp out) /\
  (forall T, In T (map entry_timestamp out) <->
             exists r, In r rows /\ bucket_key r = T).
Proof.
  intros Hf Hr. rewrite (get_word_tags_fetched _ _ _ _ _ Hf) in Hr.
  apply except_ConnectionError_Return, mention_result_timestamps in Hr.
  rewrite Hr. split; [reflexivity|]. split; [apply first_seen_NoDup|].
  intros T. rewrite first_seen_In, in_map_iff.
  split; intros (r & H1 & H2); exists r; auto.
Qed.

(** Rows of bucket 05:00 before rows of bucket 04:00: so is the result. *)
Lemma get_word_tags_first_seen_order_witness :
  map entry_timestamp Sample.mentions
  = ["2023-08-28 05:00:00"%string; "2023-08-28 04:00:00"%string] /\
  (map entry_timestamp Sample.mentions = first_seen (map bucket_key Sample.rows) /\
   NoDup (map entry_timestamp Sample.mentions) /\
   (forall T, In T (map entry_timestamp Sample.mentions) <->
              exists r, In r Sample.rows /\ bucket_key r = T)).
Proof.
  split; [reflexivity|].
  apply (get_word_tags_first_seen_order Sample.env Sample.start Sample.stop
           "gutsi" Sample.rows Sample.mentions).
  - exact sample_fetched.
  - vm_compute. reflexivity.
Defined.

(** ** The handlers: no rows, malformed times *)

(** C6.  When the record source hands back an empty sequence, [get_rank]
    raises the 204 response, but [get_word_tags], which only tests for
    [None], runs its loops over nothing and returns the empty list with
    status 200. *)
Theorem get_word_tags_empty_rows (env : Env)
    (start_time end_time search_word : string) (tag : option string) :
  fetched_rows env start_time end_time [] ->
  get_rank env start_time end_time tag = HTTPException 204 None /\
  get_word_tags env start_time end_time search_word = Return [] /\
  status_of (get_word_tags env start_time end_time search_word) = 200.
Proof.
  intros Hf. rewrite (get_word_tags_fetched _ _ _ _ _ Hf).
  destruct Hf as (s & e & Hw & Hfetch).
  unfold get_rank, call_fetch. rewrite Hw. cbn [bind]. rewrite Hfetch.
  repeat split.
Qed.

Lemma get_word_tags_empty_rows_witness :
  get_rank Sample.env_empty Sample.start Sample.stop None = HTTPException 204 None /\
  get_word_tags Sample.env_empty Sample.start Sample.stop "gutsi" = Return [] /\
  status_of (get_word_tags Sample.env_empty Sample.start Sample.stop "gutsi") = 200.
Proof.
  apply (get_word_tags_empty_rows Sample.env_empty Sample.start Sample.stop
           "gutsi" None).
  exact sample_fetched_empty.
Defined.

Lemma strptime_outcome (data_string : string) :
  (exists t, strptime data_string = Return t)
  \/ strptime data_string = Uncaught ValueError.
Proof.
  unfold strptime.
  destruct (format_matches _) as [|[t [|c rest]] l]; auto.
  destruct (_ && _ && _); eauto.
Qed.

Lemma minus_24h_outcome (t : datetime) :
  (exists t', minus_24h t = Return t') \/ minus_24h t = Uncaught OverflowError.
Proof.
  unfold minus_24h.
  destruct (1 <? day t)%nat; [eauto|].
  destruct (1 <? month t)%nat; [eauto|].
  destruct (1 <? year t)%nat; eauto.
Qed.





(** * Further properties *)

(** ** The buckets of [get_rank] *)

Lemma absent_nil (l : list string) : filter (absent []) l = l.
Proof.
  induction l as [|k l IH]; cbn [filter]; [reflexivity|].
  unfold absent at 1. cbn [existsb negb]. now rewrite IH.
Qed.

(** Appending a key unless it is present, then the first occurrences of
    the keys to come. *)
Lemma first_seen_step (K FS : list string) (T : string) :
  (if existsb (String.eqb T) K then K else K ++ [T])
  ++ filter (absent (if existsb (String.eqb T) K then K else K ++ [T])) FS
  = K ++ filter (absent K)
           (T :: filter (fun k' => negb (String.eqb k' T)) FS).
Proof.
  cbn [filter].
  assert (HabsT : absent K T = negb (existsb (String.eqb T) K)) by reflexivity.
  destruct (existsb (String.eqb T) K) eqn:HT; rewrite HabsT; cbn [negb].
  - f_equal. rewrite filter_twice. apply filter_ext. intros k.
    destruct (String.eqb_spec k T) as [->|_]; [|reflexivity].
    unfold absent. now rewrite HT.
  - rewrite <- app_assoc. cbn [app]. do 2 f_equal.
    rewrite filter_twice. apply filter_ext. intros k.
    unfold absent. rewrite existsb_app. cbn [existsb].
    rewrite orb_false_r, negb_orb. apply andb_comm.
Qed.

Lemma fold_add_record_keys (rows : list Row) (pd : dict (dict (list Word))) :
  dict_keys (fold_left add_record rows pd)
  = dict_keys pd
    ++ filter (absent (dict_keys pd)) (first_seen (map bucket_key rows)).
Proof.
  revert pd. induction rows as [|r rows IH]; intros pd;
    cbn [fold_left map first_seen].
  - cbn [filter]. now rewrite app_nil_r.
  - rewrite IH, add_record_eq, dict_keys_set, dict_mem_keys.
    apply first_seen_step.
Qed.

(** The keys of [processed_data] are the bucket keys of the rows in the
    order of their first occurrence. *)
Lemma group_records_keys (rows : list Row) :
  dict_keys (group_records rows) = first_seen (map bucket_key rows).
Proof.
  unfold group_records. rewrite fold_add_record_keys. cbn [dict_keys map app].
  apply absent_nil.
Qed.

Lemma group_records_bucket (rows : list Row) (T : string) :
  (exists cd, dict_get T (group_records rows) = Some cd)
  <-> exists r, In r rows /\ bucket_key r = T.
Proof.
  assert (H : (exists r, In r rows /\ bucket_key r = T)
              <-> dict_mem T (group_records rows) = true).
  { rewrite dict_mem_In, group_records_keys, first_seen_In, in_map_iff.
    split; intros (r & H1 & H2); exists r; auto. }
  rewrite H. unfold dict_mem.
  destruct (dict_get T (group_records rows)) as [cd|].
  - split; eauto.
  - split; [intros [cd H']|]; discriminate.
Qed.

(** A bucket contributes iff it has a selected row. *)
Lemma contributes_iff (tag : option string) (rows : list Row) (T : string)
    (cd : dict (list Word)) :
  dict_get T (group_records rows) = Some cd ->
  contributes tag (T, cd) = true
  <-> exists r, In r rows /\ row_selected tag T r.
Proof.
  intros HT. pose proof (group_records_grouped rows) as G.
  unfold contributes, row_selected. cbn [snd]. split.
  - destruct (selected_words tag cd) as [[key ws]|] eqn:Hsel; [|discriminate].
    intros _. pose proof (selected_words_key _ _ _ _ Hsel) as Hkey.
    destruct (truthy tag) as [t|] eqn:Htag.
    + destruct Hkey as [-> Hg].
      pose proof (grouped_nonempty _ _ G T cd t ws HT Hg) as Hne.
      destruct ws as [|w ws]; [congruence|].
      destruct (selected_words_sound _ _ _ _ _ _ w HT Hsel (or_introl eq_refl))
        as (r & Hin & Hb & _ & Ht).
      exists r. repeat split; auto. intros t' [= <-]. rewrite Htag in Ht. auto.
    + destruct (proj1 (group_records_bucket rows T)) as (r & Hin & Hb); [eauto|].
      exists r. repeat split; auto. discriminate.
  - intros (r & Hin & Hb & Ht). unfold selected_words.
    destruct (truthy tag) as [t|]; [|reflexivity].
    specialize (Ht t eq_refl).
    pose proof (grouped_words _ _ G T t) as Hws. unfold words_at in Hws.
    rewrite HT in Hws.
    destruct (dict_get t cd) as [ws|]; [reflexivity|].
    assert (Hw : In (word_of r) (map word_of (filter (in_bucket T t) rows))).
    { apply in_map, filter_In. split; [assumption|].
      unfold in_bucket. now rewrite Hb, Ht, !String.eqb_refl. }
    rewrite <- Hws in Hw. destruct Hw.
Qed.

Lemma collect_entries_timestamps (tag : option string)
    (items : list (string * dict (list Word))) :
  truthy tag <> Some "timestamp"%string ->
  map (dict_get "timestamp") (collect_entries tag items)
  = map (fun item => Some (VStr (fst item))) (filter (contributes tag) items).
Proof.
  intros Hne. induction items as [|[T cd] items IH];
    cbn [collect_entries filter map]; [reflexivity|].
  unfold contributes at 1. cbn [snd].
  destruct (bucket_entry tag (T, cd)) as [d|] eqn:E.
  - pose proof (bucket_entry_timestamp _ _ _ _ Hne E) as Hts.
    unfold bucket_entry in E.
    destruct (selected_words tag cd) as [[key ws]|]; [|discriminate].
    cbn [map fst]. now rewrite Hts, IH.
  - unfold bucket_entry in E.
    destruct (selected_words tag cd) as [[key ws]|]; [discriminate|].
    exact IH.
Qed.

Lemma sorted_items_keys_NoDup {V : Type} (d : dict V) :
  NoDup (dict_keys d) -> NoDup (map fst (sorted_items d)).
Proof.
  apply Permutation_NoDup, Permutation_map, stable_sort_perm.
Qed.

Lemma filter_keys_strictly_sorted {V : Type} (p : string * V -> bool)
    (items : list (string * V)) :
  StronglySorted key_le_rel items ->
  NoDup (map fst items) ->
  StronglySorted str_lt (map fst (filter p items)).
Proof.
  induction 1 as [|item items Hs IH Hall]; cbn [map filter]; [constructor|].
  intros Hnd. inversion Hnd as [|? ? Hnotin Hnd']; subst.
  destruct (p item); [|now apply IH].
  cbn [map]. constructor; [now apply IH|].
  apply Forall_forall. intros T HT.
  apply in_map_iff in HT. destruct HT as (item' & <- & Hin).
  apply filter_In in Hin. destruct Hin as [Hin _].
  rewrite Forall_forall in Hall. split; [exact (Hall _ Hin)|].
  intros Heq. apply Hnotin. rewrite Heq. now apply in_map.
Qed.

(** The buckets that contribute, by ascending key. *)
Lemma contributing_buckets_spec (tag : option string) (rows : list Row) :
  let Ts := map fst (filter (contributes tag) (sorted_items (group_records rows))) in
  StronglySorted str_lt Ts /\
  forall T, In T Ts <-> exists r, In r rows /\ row_selected tag T r.
Proof.
  cbv zeta. pose proof (group_records_grouped rows) as G. split.
  - apply filter_keys_strictly_sorted; [apply sorted_items_sorted|].
    apply sorted_items_keys_NoDup, (grouped_keys _ _ G).
  - intros T. rewrite in_map_iff. split.
    + intros ([T' cd] & <- & Hin). apply filter_In in Hin.
      destruct Hin as [Hin Hc]. apply (proj1 (sorted_items_In _ _)) in Hin.
      apply In_dict_get in Hin; [|apply (grouped_keys _ _ G)].
      now apply (contributes_iff tag rows T' cd Hin).
    + intros (r & Hin & Hsel).
      destruct (proj2 (group_records_bucket rows T)) as (cd & HT);
        [exists r; split; [assumption | apply Hsel]|].
      exists (T, cd). split; [reflexivity|]. apply filter_In. split.
      * apply sorted_items_In. now apply dict_get_In.
      * apply (contributes_iff tag rows T cd HT). eauto.
Qed.

(** X1.  Unless the requested tag is the string "timestamp", the
    timestamp fields of the result of [get_rank] are the keys of the
    buckets that have a selected row (any row without a tag, a row of
    the tag with one), each once, in strictly ascending order. *)
Theorem get_rank_buckets (env : Env) (start_time end_time : string)
    (tag : option string) (rows : list Row) (out : list (dict value)) :
  fetched_rows env start_time end_time rows ->
  get_rank env start_time end_time tag = Return out ->
  truthy tag <> Some "timestamp"%string ->
  exists Ts,
    map (dict_get "timestamp") out = map (fun T => Some (VStr T)) Ts /\
    StronglySorted str_lt Ts /\
    forall T, In T Ts <-> exists r, In r rows /\ row_selected tag T r.
Proof.
  intros Hf Hr Hne. destruct (get_rank_Return _ _ _ _ _ _ Hf Hr) as [_ ->].
  exists (map fst (filter (contributes tag) (sorted_items (group_records rows)))).
  split; [|apply contributing_buckets_spec].
  unfold rank_result. rewrite collect_entries_timestamps by assumption.
  now rewrite map_map.
Qed.

Lemma get_rank_buckets_witness :
  exists Ts,
    map (dict_get "timestamp") [Sample.webtoon_04]
    = map (fun T => Some (VStr T)) Ts /\
    StronglySorted str_lt Ts /\
    forall T, In T Ts <->
              exists r, In r Sample.rows /\
                        row_selected (Some "webtoon"%string) T r.
Proof.
  apply (get_rank_buckets Sample.env Sample.start Sample.stop
           (Some "webtoon"%string) Sample.rows [Sample.webtoon_04]).
  - exact sample_fetched.
  - reflexivity.
  - discriminate.
Defined.

(** ** The words [get_rank] keeps *)

(** Every selected row has its word among the selected words. *)
Lemma selected_words_complete (tag : option string) (rows : list Row)
    (T key : string) (cd : dict (list Word)) (ws : list Word) (r : Row) :
  dict_get T (group_records rows) = Some cd ->
  selected_words tag cd = Some (key, ws) ->
  In r rows -> row_selected tag T r ->
  In (word_of r) ws.
Proof.
  intros HT Hsel Hin [Hb Ht].
  pose proof (group_records_grouped rows) as G.
  assert (Hat : In (word_of r) (words_at (group_records rows) T (row_content_tag r))).
  { rewrite (grouped_words _ _ G). apply in_map, filter_In.
    split; [assumption|]. unfold in_bucket. now rewrite Hb, !String.eqb_refl. }
  unfold words_at in Hat. rewrite HT in Hat.
  apply selected_words_key in Hsel. destruct (truthy tag) as [t|].
  - destruct Hsel as [_ Hg]. rewrite (Ht t eq_refl), Hg in Hat. exact Hat.
  - destruct Hsel as [_ ->].
    destruct (dict_get (row_content_tag r) cd) as [wsg|] eqn:Hg; [|destruct Hat].
    apply in_concat. exists wsg. split; [|exact Hat].
    apply dict_get_In in Hg. unfold dict_values.
    change wsg with (snd (row_content_tag r, wsg)). now apply in_map.
Qed.

Lemma keep_first_covers (seen : list Z) (ws : list Word) (w : Word) :
  In w ws ->
  In (rank w) seen \/ In (rank w) (map rank (keep_first_per_rank seen ws)).
Proof.
  revert seen. induction ws as [|x ws IH]; intros seen; cbn [In]; [tauto|].
  cbn [keep_first_per_rank].
  destruct (existsb (Z.eqb (rank x)) seen) eqn:Hseen.
  - intros [->|Hin]; [left; now apply existsb_Zeqb_In | now apply IH].
  - cbn [map In]. intros [->|Hin]; [right; now left|].
    destruct (IH (rank x :: seen) Hin) as [[Heq|Hs]|Hk]; auto.
Qed.

Lemma firstn_short {A : Type} (n : nat) (l : list A) :
  (length (firstn n l) < n)%nat -> firstn n l = l.
Proof.
  rewrite length_firstn. intros H. apply firstn_all2. lia.
Qed.

Lemma strongly_sorted_after {A : Type} (R : A -> A -> Prop)
    (before after : list A) (x y : A) :
  StronglySorted R (before ++ x :: after) -> In y after -> R x y.
Proof.
  induction before as [|b before IH]; cbn [app]; intros Hs Hy;
    inversion Hs as [|? ? Hs' Hall]; subst.
  - rewrite Forall_forall in Hall. now apply Hall.
  - now apply IH.
Qed.

(** X3.  The first word of every list emitted by [get_rank] has the
    largest occurrence count among the selected rows of its bucket. *)
Theorem get_rank_first_is_max (env : Env) (start_time end_time : string)
    (tag : option string) (rows : list Row) (out : list (dict value))
    (d : dict value) (k : string) (w : Word) (es : list Word) :
  fetched_rows env start_time end_time rows ->
  get_rank env start_time end_time tag = Return out ->
  In d out ->
  dict_get k d = Some (VWords (w :: es)) ->
  exists T key ws,
    emitted_from tag rows T key ws d /\
    forall r, In r rows -> row_selected tag T r ->
              row_occurrence_count r <= occurrence_count w.
Proof.
  intros Hf Hr Hd Hk.
  destruct (get_rank_emitted _ _ _ _ _ _ _ Hf Hr Hd) as (T & key & ws & Hem).
  exists T, key, ws. split; [exact Hem|].
  destruct Hem as (cd & HT & Hsel & ->).
  apply timestamp_data_words in Hk.
  intros r Hin Hrs.
  pose proof (selected_words_complete _ _ _ _ _ _ _ HT Hsel Hin Hrs) as Hw.
  apply (stable_sort_In count_ge) in Hw. fold (sort_by_count_desc ws) in Hw.
  pose proof (sort_by_count_desc_sorted ws) as Hs.
  rewrite top_words_spec in Hk.
  destruct (sort_by_count_desc ws) as [|x scan]; [destruct Hw|].
  cbn [keep_first_per_rank existsb firstn] in Hk. injection Hk as <- _.
  inversion Hs as [|? ? _ Hall]; subst.
  destruct Hw as [->|Hw]; [simpl; lia|].
  rewrite Forall_forall in Hall. exact (Hall _ Hw).
Qed.

Lemma get_rank_first_is_max_witness :
  exists T key ws,
    emitted_from None Sample.rows T key ws Sample.total_04 /\
    forall r, In r Sample.rows -> row_selected None T r ->
              row_occurrence_count r <= occurrence_count Sample.w_gomgomhi.
Proof.
  apply (get_rank_first_is_max Sample.env Sample.start Sample.stop None
           Sample.rows [Sample.total_04; Sample.total_05] Sample.total_04
           "total"%string Sample.w_gomgomhi [Sample.w_yeokhwal]).
  - exact sample_fetched.
  - reflexivity.
  - left; reflexivity.
  - reflexivity.
Defined.

(** X4.  A list emitted by [get_rank] with fewer than ten words holds
    every rank that a selected row of its bucket carries: below the cut
    no rank is lost. *)
Theorem get_rank_ranks_covered (env : Env) (start_time end_time : string)
    (tag : option string) (rows : list Row) (out : list (dict value))
    (d : dict value) (k : string) (es : list Word) :
  fetched_rows env start_time end_time rows ->
  get_rank env start_time end_time tag = Return out ->
  In d out ->
  dict_get k d = Some (VWords es) ->
  (length es < 10)%nat ->
  exists T key ws,
    emitted_from tag rows T key ws d /\
    forall r, In r rows -> row_selected tag T r ->
              In (row_rank r) (map rank es).
Proof.
  intros Hf Hr Hd Hk Hlen.
  destruct (get_rank_emitted _ _ _ _ _ _ _ Hf Hr Hd) as (T & key & ws & Hem).
  exists T, key, ws. split; [exact Hem|].
  destruct Hem as (cd & HT & Hsel & ->).
  apply timestamp_data_words in Hk. subst es.
  rewrite top_words_spec in Hlen |- *. rewrite (firstn_short _ _ Hlen).
  intros r Hin Hrs.
  pose proof (selected_words_complete _ _ _ _ _ _ _ HT Hsel Hin Hrs) as Hw.
  apply (stable_sort_In count_ge) in Hw. fold (sort_by_count_desc ws) in Hw.
  destruct (keep_first_covers [] _ _ Hw) as [[]|Hc]. exact Hc.
Qed.

Lemma get_rank_ranks_covered_witness :
  exists T key ws,
    emitted_from None Sample.rows T key ws Sample.total_04 /\
    forall r, In r Sample.rows -> row_selected None T r ->
              In (row_rank r) (map rank [Sample.w_gomgomhi; Sample.w_yeokhwal]).
Proof.
  apply (get_rank_ranks_covered Sample.env Sample.start Sample.stop None
           Sample.rows [Sample.total_04; Sample.total_05] Sample.total_04
           "total"%string).
  - exact sample_fetched.
  - reflexivity.
  - left; reflexivity.
  - reflexivity.
  - simpl. lia.
Defined.

(** X5.  A word emitted by [get_rank] has the largest occurrence count
    among the selected rows of its bucket that carry its rank. *)
Theorem get_rank_best_of_rank (env : Env) (start_time end_time : string)
    (tag : option string) (rows : list Row) (out : list (dict value))
    (d : dict value) (k : string) (es : list Word) :
  fetched_rows env start_time end_time rows ->
  get_rank env start_time end_time tag = Return out ->
  In d out ->
  dict_get k d = Some (VWords es) ->
  exists T key ws,
    emitted_from tag rows T key ws d /\
    forall E r, In E es -> In r rows -> row_selected tag T r ->
                row_rank r = rank E ->
                row_occurrence_count r <= occurrence_count E.
Proof.
  intros Hf Hr Hd Hk.
  destruct (get_rank_emitted _ _ _ _ _ _ _ Hf Hr Hd) as (T & key & ws & Hem).
  exists T, key, ws. split; [exact Hem|].
  destruct Hem as (cd & HT & Hsel & ->).
  apply timestamp_data_words in Hk. subst es.
  intros E r HE Hin Hrs Hrank.
  pose proof (selected_words_complete _ _ _ _ _ _ _ HT Hsel Hin Hrs) as Hw.
  apply (stable_sort_In count_ge) in Hw. fold (sort_by_count_desc ws) in Hw.
  pose proof (sort_by_count_desc_sorted ws) as Hs.
  destruct (top_words_is_first _ _ HE) as (before & after & Hscan & Hfresh).
  rewrite Hscan in Hw, Hs. apply in_app_or in Hw.
  destruct Hw as [Hw|[HEr|Hw]].
  - destruct (Hfresh _ Hw). exact Hrank.
  - rewrite HEr. simpl. lia.
  - exact (strongly_sorted_after _ _ _ _ _ Hs Hw).
Qed.

Lemma get_rank_best_of_rank_witness :
  exists T key ws,
    emitted_from None Sample.rows T key ws Sample.total_04 /\
    forall E r, In E [Sample.w_gomgomhi; Sample.w_yeokhwal] ->
                In r Sample.rows -> row_selected None T r ->
                row_rank r = rank E ->
                row_occurrence_count r <= occurrence_count E.
Proof.
  apply (get_rank_best_of_rank Sample.env Sample.start Sample.stop None
           Sample.rows [Sample.total_04; Sample.total_05] Sample.total_04
           "total"%string).
  - exact sample_fetched.
  - reflexivity.
  - left; reflexivity.
  - reflexivity.
Defined.

(** ** A requested tag filters the rows *)

Lemma str_le_antisym (s1 s2 : string) : str_le s1 s2 -> str_le s2 s1 -> s1 = s2.
Proof. apply String.leb_antisym. Qed.

(** A strictly ascending list is determined by its elements. *)
Lemma strictly_sorted_unique (l1 l2 : list string) :
  StronglySorted str_lt l1 -> StronglySorted str_lt l2 ->
  (forall x, In x l1 <-> In x l2) -> l1 = l2.
Proof.
  intros H1. revert l2. induction H1 as [|a l1 Hs1 IH Ha]; intros l2 H2 Hiff.
  - destruct l2 as [|b l2]; [reflexivity|].
    destruct (proj2 (Hiff b) (or_introl eq_refl)).
  - destruct H2 as [|b l2 Hs2 Hb].
    + destruct (proj1 (Hiff a) (or_introl eq_refl)).
    + rewrite Forall_forall in Ha, Hb.
      assert (Hab : a = b).
      { destruct (proj1 (Hiff a) (or_introl eq_refl)) as [E|Hin]; [now symmetry|].
        destruct (proj2 (Hiff b) (or_introl eq_refl)) as [E|Hin']; [exact E|].
        apply str_le_antisym; [apply (Ha _ Hin') | apply (Hb _ Hin)]. }
      subst b. f_equal. apply IH; [exact Hs2|].
      intros x. split; intros Hx.
      * destruct (proj1 (Hiff x) (or_intror Hx)) as [E|Hin]; [|exact Hin].
        subst x. destruct (Ha _ Hx) as [_ Hne]. now destruct Hne.
      * destruct (proj2 (Hiff x) (or_intror Hx)) as [E|Hin]; [|exact Hin].
        subst x. destruct (Hb _ Hx) as [_ Hne]. now destruct Hne.
Qed.

(** With a requested tag, the dictionary of a bucket is built from the
    rows of the bucket that carry the tag. *)
Lemma collect_entries_tag_form (t : string) (rows : list Row)
    (items : list (string * dict (list Word))) :
  t <> EmptyString ->
  (forall T cd, In (T, cd) items -> dict_get T (group_records rows) = Some cd) ->
  collect_entries (Some t) items
  = map (fun T => timestamp_data_of T t
                    (top_words (sort_by_count_desc
                                  (map word_of (filter (in_bucket T t) rows)))))
        (map fst (filter (contributes (Some t)) items)).
Proof.
  intros Ht Hitems.
  assert (Htruthy : truthy (Some t) = Some t)
    by (destruct t; [exfalso; now apply Ht | reflexivity]).
  pose proof (group_records_grouped rows) as G.
  induction items as [|[T cd] items IH]; cbn [collect_entries filter map];
    [reflexivity|].
  rewrite IH by (intros; apply Hitems; now right).
  assert (Hc : contributes (Some t) (T, cd)
               = match dict_get t cd with Some _ => true | None => false end).
  { unfold contributes, selected_words. cbn [snd]. rewrite Htruthy.
    now destruct (dict_get t cd). }
  assert (Hb : bucket_entry (Some t) (T, cd)
               = match dict_get t cd with
                 | Some ws => Some (timestamp_data_of T t
                                      (top_words (sort_by_count_desc ws)))
                 | None => None
                 end).
  { unfold bucket_entry, selected_words. rewrite Htruthy.
    now destruct (dict_get t cd). }
  rewrite Hc, Hb.
  pose proof (grouped_words _ _ G T t) as Hws. unfold words_at in Hws.
  rewrite (Hitems T cd (or_introl eq_refl)) in Hws.
  destruct (dict_get t cd) as [ws|]; [|reflexivity].
  cbn [map fst]. now rewrite Hws.
Qed.

(** X2.  With a requested tag, the result of the ranking is the one it
    would be if the record source had handed back the rows of that tag
    only: rows of other tags have no influence on it. *)
Theorem rank_result_tag_filter (t : string) (rows : list Row) :
  t <> EmptyString ->
  rank_result (Some t) rows
  = rank_result (Some t)
      (filter (fun r => String.eqb (row_content_tag r) t) rows).
Proof.
  intros Ht.
  assert (Htruthy : truthy (Some t) = Some t)
    by (destruct t; [exfalso; now apply Ht | reflexivity]).
  set (rows' := filter (fun r => String.eqb (row_content_tag r) t) rows).
  unfold rank_result.
  rewrite (collect_entries_tag_form t rows), (collect_entries_tag_form t rows');
    try assumption.
  - destruct (contributing_buckets_spec (Some t) rows) as [Hs Hin].
    destruct (contributing_buckets_spec (Some t) rows') as [Hs' Hin'].
    cbv zeta in *.
    rewrite (strictly_sorted_unique _ _ Hs Hs').
    + apply map_ext. intros T. do 4 f_equal. unfold rows'.
      rewrite filter_twice. apply filter_ext. intros r. unfold in_bucket.
      destruct (String.eqb (row_content_tag r) t); [reflexivity|].
      now rewrite andb_false_r.
    + intros T. rewrite Hin, Hin'. unfold rows', row_selected.
      split; intros (r & Hr & Hb & Htag); exists r.
      * repeat split; auto. apply filter_In. split; [assumption|].
        rewrite (Htag t Htruthy). apply String.eqb_refl.
      * apply filter_In in Hr. destruct Hr as [Hr _]. auto.
  - intros T cd Hitem. apply (proj1 (sorted_items_In _ _)) in Hitem.
    apply In_dict_get; [apply (group_records_grouped rows')|exact Hitem].
  - intros T cd Hitem. apply (proj1 (sorted_items_In _ _)) in Hitem.
    apply In_dict_get; [apply (group_records_grouped rows)|exact Hitem].
Qed.

Lemma rank_result_tag_filter_witness :
  rank_result (Some "news"%string) Sample.rows
  = rank_result (Some "news"%string)
      (filter (fun r => String.eqb (row_content_tag r) "news") Sample.rows).
Proof.
  apply (rank_result_tag_filter "news"%string Sample.rows). discriminate.
Defined.

(** ** What [get_word_tags] computes *)

Lemma sum_counts_app (l1 l2 : list Row) :
  sum_counts (l1 ++ l2) = sum_counts l1 + sum_counts l2.
Proof.
  unfold sum_counts. induction l1 as [|r l1 IH]; simpl; [reflexivity|].
  rewrite IH. lia.
Qed.

Lemma existsb_filter_other (w k : string) (l : list string) :
  w <> k ->
  existsb (String.eqb w) (filter (fun k' => negb (String.eqb k' k)) l)
  = existsb (String.eqb w) l.
Proof.
  intros Hne. apply Bool.eq_iff_eq_true.
  rewrite !existsb_eqb_In, filter_In.
  destruct (String.eqb_spec w k); [contradiction|]. cbn [negb]. tauto.
Qed.

(** [append_if_absent] extends the list of first occurrences. *)
Lemma first_seen_snoc (l : list string) (w : string) :
  first_seen (l ++ [w]) = append_if_absent w (first_seen l).
Proof.
  unfold append_if_absent.
  induction l as [|k l IH]; cbn [app first_seen]; [reflexivity|].
  rewrite IH. cbn [existsb].
  destruct (String.eqb_spec w k) as [->|Hne]; cbn [orb].
  - destruct (existsb (String.eqb k) (first_seen l)); [reflexivity|].
    rewrite filter_app. cbn [filter]. rewrite String.eqb_refl. cbn [negb].
    now rewrite app_nil_r.
  - rewrite existsb_filter_other by assumption.
    destruct (existsb (String.eqb w) (first_seen l)); [reflexivity|].
    rewrite filter_app. cbn [filter].
    destruct (String.eqb_spec w k); [contradiction|]. reflexivity.
Qed.

Lemma expected_summary_fresh (search_word : string) (seen : list Row) (T : string) :
  filter (in_bucket_of T) seen = [] ->
  expected_summary search_word seen T = new_summary search_word.
Proof. unfold expected_summary. intros ->. reflexivity. Qed.

Lemma expected_summary_other (search_word : string) (seen : list Row)
    (r : Row) (T : string) :
  in_bucket_of T r = false ->
  expected_summary search_word (seen ++ [r]) T
  = expected_summary search_word seen T.
Proof.
  unfold expected_summary. intros H. rewrite filter_app. cbn [filter].
  rewrite H. now rewrite app_nil_r.
Qed.

Lemma sum_counts_tag_snoc (g : string) (B : list Row) (r : Row) :
  sum_counts (filter (has_tag g) (B ++ [r]))
  = sum_counts (filter (has_tag g) B)
    + (if String.eqb (row_content_tag r) g then row_occurrence_count r else 0).
Proof.
  rewrite filter_app, sum_counts_app. cbn [filter]. unfold has_tag at 2.
  destruct (String.eqb (row_content_tag r) g); cbn; lia.
Qed.

Lemma first_seen_words_snoc (search_word : string) (f : Row -> string)
    (B : list Row) (r : Row) :
  first_seen (map f (filter (mentions_word search_word) (B ++ [r])))
  = if mentions_word search_word r
    then append_if_absent (f r)
           (first_seen (map f (filter (mentions_word search_word) B)))
    else first_seen (map f (filter (mentions_word search_word) B)).
Proof.
  rewrite filter_app. cbn [filter].
  destruct (mentions_word search_word r).
  - rewrite map_app. cbn [map]. now rewrite first_seen_snoc.
  - now rewrite app_nil_r.
Qed.

(** The expected summary of a row's bucket after the row. *)
Lemma expected_summary_snoc (search_word : string) (seen : list Row) (r : Row) :
  let e := expected_summary search_word seen (bucket_key r) in
  let n := row_occurrence_count r in
  let tag := row_content_tag r in
  expected_summary search_word (seen ++ [r]) (bucket_key r)
  = mkSummary
      (m_total e + n + (if String.eqb tag "total" then n else 0))
      (m_news e + (if String.eqb tag "news" then n else 0))
      (m_webtoon e + (if String.eqb tag "webtoon" then n else 0))
      (m_youtube e + (if String.eqb tag "youtube" then n else 0))
      search_word
      (if mentions_word search_word r
       then append_if_absent (row_incorrect_word r) (m_incorrect_word e)
       else m_incorrect_word e)
      (if mentions_word search_word r
       then append_if_absent (row_correct_word r) (m_correct_word e)
       else m_correct_word e).
Proof.
  cbv zeta. unfold expected_summary.
  assert (HB : filter (in_bucket_of (bucket_key r)) (seen ++ [r])
               = filter (in_bucket_of (bucket_key r)) seen ++ [r]).
  { rewrite filter_app. cbn [filter]. unfold in_bucket_of at 2.
    now rewrite String.eqb_refl. }
  rewrite HB. generalize (filter (in_bucket_of (bucket_key r)) seen) as B.
  intros B. cbn [m_total m_news m_webtoon m_youtube m_incorrect_word m_correct_word].
  rewrite !sum_counts_tag_snoc, !first_seen_words_snoc, sum_counts_app.
  f_equal. cbn. lia.
Qed.

(** One round on a row of the bucket. *)
Lemma expected_summary_step (search_word : string) (seen : list Row)
    (r : Row) (s1 : Summary) :
  add_to_key (row_content_tag r) (row_occurrence_count r)
    (expected_summary search_word seen (bucket_key r)) = Return s1 ->
  note_words search_word r (add_total (row_occurrence_count r) s1)
  = expected_summary search_word (seen ++ [r]) (bucket_key r).
Proof.
  rewrite expected_summary_snoc.
  assert (Hsw : m_search_word (expected_summary search_word seen (bucket_key r))
                = search_word) by reflexivity.
  revert Hsw. generalize (expected_summary search_word seen (bucket_key r)) as e.
  intros e Hsw. unfold note_words, mentions_word, add_to_key.
  set (tag := row_content_tag r). set (n := row_occurrence_count r).
  destruct (String.eqb_spec tag "total") as [->|_].
  { intros [= <-]. unfold add_total. cbn. rewrite Hsw.
    destruct (_ || _); f_equal; lia. }
  destruct (String.eqb_spec tag "news") as [->|_].
  { intros [= <-]. unfold add_total. cbn. rewrite Hsw.
    destruct (_ || _); f_equal; lia. }
  destruct (String.eqb_spec tag "webtoon") as [->|_].
  { intros [= <-]. unfold add_total. cbn. rewrite Hsw.
    destruct (_ || _); f_equal; lia. }
  destruct (String.eqb_spec tag "youtube") as [->|_].
  { intros [= <-]. unfold add_total. cbn. rewrite Hsw.
    destruct (_ || _); f_equal; lia. }
  destruct (_ || _ || _); discriminate.
Qed.

Lemma mention_state_nil (search_word : string) : mention_state search_word [] [].
Proof. intros T. reflexivity. Qed.

Lemma mention_step_state (search_word : string) (seen : list Row)
    (mention_counts mention_counts' : dict Summary) (r : Row) :
  mention_state search_word seen mention_counts ->
  mention_step search_word mention_counts r = Return mention_counts' ->
  mention_state search_word (seen ++ [r]) mention_counts'.
Proof.
  intros Hst. unfold mention_step. fold (bucket_key r).
  set (T0 := bucket_key r).
  set (mc1 := if dict_mem T0 mention_counts then mention_counts
              else dict_set T0 (new_summary search_word) mention_counts).
  assert (Hstart : match dict_get T0 mc1 with
                   | Some s => s
                   | None => new_summary search_word
                   end = expected_summary search_word seen T0).
  { pose proof (Hst T0) as H0. unfold mc1, dict_mem.
    destruct (dict_get T0 mention_counts) as [s0|] eqn:HT0.
    - now rewrite HT0.
    - rewrite dict_get_set_same. symmetry. now apply expected_summary_fresh. }
  assert (Hother : forall T, T <> T0 -> dict_get T mc1 = dict_get T mention_counts).
  { intros T HT. unfold mc1. destruct (dict_mem T0 mention_counts);
      [reflexivity | now apply dict_get_set_other]. }
  rewrite Hstart.
  destruct (add_to_key _ _ _) as [s1| |] eqn:Hadd; cbn [bind]; try discriminate.
  intros [= <-] T.
  destruct (String.eqb_spec T T0) as [->|HT].
  - rewrite dict_get_set_same. now apply expected_summary_step.
  - rewrite dict_get_set_other, Hother by assumption.
    assert (Hb : in_bucket_of T r = false).
    { unfold in_bucket_of. fold T0.
      destruct (String.eqb_spec T0 T); [now subst | reflexivity]. }
    pose proof (Hst T) as HT'.
    destruct (dict_get T mention_counts) as [s|].
    + now rewrite expected_summary_other.
    + rewrite filter_app, HT'. cbn [filter]. now rewrite Hb.
Qed.

Lemma mention_loop_state (search_word : string) (rows seen : list Row)
    (mention_counts mention_counts' : dict Summary) :
  mention_state search_word seen mention_counts ->
  mention_loop search_word mention_counts rows = Return mention_counts' ->
  mention_state search_word (seen ++ rows) mention_counts'.
Proof.
  revert seen mention_counts.
  induction rows as [|r rows IH]; intros seen mc Hst; cbn [mention_loop].
  - intros [= <-]. now rewrite app_nil_r.
  - destruct (mention_step search_word mc r) as [mc1| |] eqn:Hstep;
      cbn [bind]; try discriminate.
    intros Hloop.
    replace (seen ++ r :: rows) with ((seen ++ [r]) ++ rows)
      by now rewrite <- app_assoc.
    eapply IH; [|exact Hloop]. eapply mention_step_state; eassumption.
Qed.

(** A dictionary with unique keys whose values are a function of the key. *)
Lemma dict_as_map {V : Type} (d : dict V) (f : string -> V) :
  NoDup (dict_keys d) ->
  (forall k v, dict_get k d = Some v -> v = f k) ->
  d = map (fun k => (k, f k)) (dict_keys d).
Proof.
  induction d as [|[k v] d IH]; cbn [dict_keys map fst]; [reflexivity|].
  intros Hnd Hf. inversion Hnd as [|? ? Hk Hnd']; subst.
  f_equal.
  - f_equal. apply Hf. cbn [dict_get]. now rewrite String.eqb_refl.
  - apply IH; [assumption|]. intros k' v' Hget. apply Hf. cbn [dict_get].
    destruct (String.eqb_spec k' k) as [->|_]; [|assumption].
    exfalso. apply Hk. apply dict_get_In in Hget.
    change k with (fst (k, v')). now apply in_map.
Qed.

(** The result of the mention loop, said without a loop. *)
Lemma mention_result_spec (search_word : string) (rows : list Row)
    (out : list MentionEntry) :
  mention_result search_word rows = Return out ->
  out = map (fun T => mkMentionEntry T (expected_summary search_word rows T))
            (first_seen (map bucket_key rows)).
Proof.
  unfold mention_result.
  destruct (mention_loop search_word [] rows) as [mc| |] eqn:Hloop;
    cbn [bind]; try discriminate.
  intros [= <-].
  pose proof (mention_loop_state _ _ [] _ _ (mention_state_nil search_word) Hloop)
    as Hst. cbn [app] in Hst.
  pose proof (mention_loop_keys _ _ _ _ Hloop) as Hkeys.
  cbn [dict_keys map app] in Hkeys. rewrite absent_nil in Hkeys.
  rewrite (dict_as_map mc (expected_summary search_word rows)).
  - rewrite Hkeys, map_map. reflexivity.
  - rewrite Hkeys. apply first_seen_NoDup.
  - intros T s Hget. specialize (Hst T). now rewrite Hget in Hst.
Qed.

Lemma get_word_tags_spec (env : Env) (start_time end_time search_word : string)
    (rows : list Row) (out : list MentionEntry) :
  fetched_rows env start_time end_time rows ->
  get_word_tags env start_time end_time search_word = Return out ->
  out = map (fun T => mkMentionEntry T (expected_summary search_word rows T))
            (first_seen (map bucket_key rows)).
Proof.
  intros Hf Hr. rewrite (get_word_tags_fetched _ _ _ _ _ Hf) in Hr.
  now apply except_ConnectionError_Return, mention_result_spec in Hr.
Qed.

(** Rows that all carry a channel tag have no row tagged "total". *)
Lemma channel_rows_no_total (rows : list Row) (p : Row -> bool) :
  (forall r, In r rows -> is_channel (row_content_tag r) = true) ->
  filter (has_tag "total") (filter p rows) = [].
Proof.
  intros Hch. induction rows as [|r rows IH]; cbn [filter]; [reflexivity|].
  assert (IH' : filter (has_tag "total") (filter p rows) = [])
    by (apply IH; intros; apply Hch; now right).
  destruct (p r); [|exact IH']. cbn [filter]. rewrite IH'.
  unfold has_tag. destruct (String.eqb_spec (row_content_tag r) "total") as [E|_];
    [|reflexivity].
  specialize (Hch r (or_introl eq_refl)). rewrite E in Hch. discriminate.
Qed.

(** [summary[content_tag] += n] on a channel tag: the counter of that
    channel grows by [n], nothing else changes. *)
Lemma add_to_key_channel_adds (content_tag : string) (n : Z) (s : Summary) :
  is_channel content_tag = true ->
  exists s',
    add_to_key content_tag n s = Return s' /\
    m_total s' = m_total s /\
    m_news s' = m_news s + (if String.eqb content_tag "news" then n else 0) /\
    m_webtoon s'
    = m_webtoon s + (if String.eqb content_tag "webtoon" then n else 0) /\
    m_youtube s'
    = m_youtube s + (if String.eqb content_tag "youtube" then n else 0).
Proof.
  unfold is_channel, add_to_key. intros H.
  destruct (String.eqb_spec content_tag "total") as [->|_]; [discriminate|].
  destruct (String.eqb_spec content_tag "news") as [->|_].
  { eexists. split; [reflexivity|]. cbn. lia. }
  destruct (String.eqb_spec content_tag "webtoon") as [->|_].
  { eexists. split; [reflexivity|]. cbn. lia. }
  destruct (String.eqb_spec content_tag "youtube") as [->|_].
  { eexists. split; [reflexivity|]. cbn. lia. }
  discriminate.
Qed.

(** One round of the loop on a row with a channel tag: in the row's
    bucket (a fresh one if the key is new) the count is added to the
    total and to the counter of the row's channel; the other counters
    and the other buckets are left as they are. *)
Lemma mention_step_adds (search_word : string) (mention_counts : dict Summary)
    (r : Row) :
  is_channel (row_content_tag r) = true ->
  exists mention_counts' after,
    mention_step search_word mention_counts r = Return mention_counts' /\
    dict_get (bucket_key r) mention_counts' = Some after /\
    (let before := match dict_get (bucket_key r) mention_counts with
                   | Some s => s
                   | None => new_summary search_word
                   end in
     let n := row_occurrence_count r in
     m_total after = m_total before + n /\
     m_news after
     = m_news before + (if String.eqb (row_content_tag r) "news" then n else 0) /\
     m_webtoon after
     = m_webtoon before
       + (if String.eqb (row_content_tag r) "webtoon" then n else 0) /\
     m_youtube after
     = m_youtube before
       + (if String.eqb (row_content_tag r) "youtube" then n else 0)) /\
    forall T, T <> bucket_key r ->
              dict_get T mention_counts' = dict_get T mention_counts.
Proof.
  intros Hch. unfold mention_step. fold (bucket_key r).
  set (T0 := bucket_key r).
  set (mc1 := if dict_mem T0 mention_counts then mention_counts
              else dict_set T0 (new_summary search_word) mention_counts).
  assert (Hstart : match dict_get T0 mc1 with
                   | Some s => s
                   | None => new_summary search_word
                   end
                   = match dict_get T0 mention_counts with
                     | Some s => s
                     | None => new_summary search_word
                     end).
  { unfold mc1, dict_mem.
    destruct (dict_get T0 mention_counts) as [s0|] eqn:HT0.
    - now rewrite HT0.
    - now rewrite dict_get_set_same. }
  assert (Hother : forall T, T <> T0 -> dict_get T mc1 = dict_get T mention_counts).
  { intros T HT. unfold mc1. destruct (dict_mem T0 mention_counts);
      [reflexivity | now apply dict_get_set_other]. }
  rewrite Hstart.
  set (before := match dict_get T0 mention_counts with
                 | Some s => s
                 | None => new_summary search_word
                 end).
  destruct (add_to_key_channel_adds _ (row_occurrence_count r) before Hch)
    as (s1 & -> & Ht & Hn & Hw & Hy).
  cbn [bind]. eexists _, _. split; [reflexivity|].
  split; [apply dict_get_set_same|]. split.
  - cbv zeta.
    destruct (note_words_counts search_word r
                (add_total (row_occurrence_count r) s1))
      as (-> & -> & -> & ->).
    cbn [add_total m_total m_news m_webtoon m_youtube].
    rewrite Ht, Hn, Hw, Hy. repeat split.
  - intros T HT. rewrite dict_get_set_other by assumption. now apply Hother.
Qed.

(** C5.  When every row carries one of the three channel tags,
    [get_word_tags] returns one entry per bucket, and in every entry the
    total is the sum of the three channel counters, each channel counter
    is the sum of the occurrence counts of the bucket's rows of that
    channel, and the total is the sum over all rows of the bucket.  The
    equality is kept by every round of the loop: a round adds the row's
    occurrence count to the total of the row's bucket and to the counter
    of the row's channel, and changes no other counter and no other
    bucket. *)
Theorem get_word_tags_totals (env : Env) (start_time end_time search_word : string)
    (rows : list Row) :
  fetched_rows env start_time end_time rows ->
  (forall r, In r rows -> is_channel (row_content_tag r) = true) ->
  (exists out,
     get_word_tags env start_time end_time search_word = Return out /\
     map entry_timestamp out = first_seen (map bucket_key rows) /\
     forall e, In e out ->
       let B := filter (in_bucket_of (entry_timestamp e)) rows in
       m_total (entry_counts e)
       = m_news (entry_counts e) + m_webtoon (entry_counts e)
         + m_youtube (entry_counts e) /\
       m_total (entry_counts e) = sum_counts B /\
       m_news (entry_counts e) = sum_counts (filter (has_tag "news") B) /\
       m_webtoon (entry_counts e) = sum_counts (filter (has_tag "webtoon") B) /\
       m_youtube (entry_counts e) = sum_counts (filter (has_tag "youtube") B)) /\
  (forall mention_counts r,
     In r rows -> all_balanced mention_counts ->
     exists mention_counts' after,
       mention_step search_word mention_counts r = Return mention_counts' /\
       all_balanced mention_counts' /\
       dict_get (bucket_key r) mention_counts' = Some after /\
       (let before := match dict_get (bucket_key r) mention_counts with
                      | Some s => s
                      | None => new_summary search_word
                      end in
        let n := row_occurrence_count r in
        m_total after = m_total before + n /\
        m_news after
        = m_news before
          + (if String.eqb (row_content_tag r) "news" then n else 0) /\
        m_webtoon after
        = m_webtoon before
          + (if String.eqb (row_content_tag r) "webtoon" then n else 0) /\
        m_youtube after
        = m_youtube before
          + (if String.eqb (row_content_tag r) "youtube" then n else 0)) /\
       forall T, T <> bucket_key r ->
                 dict_get T mention_counts' = dict_get T mention_counts).
Proof.
  intros Hf Hch. split.
  - destruct (mention_loop_balanced search_word rows [] Hch) as (mc & Hloop & Hbal);
      [intros ? ? []|].
    set (out := map (fun '(timestamp, tag_counts) =>
                       mkMentionEntry timestamp tag_counts) mc).
    assert (Hres : mention_result search_word rows = Return out)
      by (unfold mention_result; now rewrite Hloop).
    pose proof (mention_result_spec search_word rows out Hres) as Hspec.
    exists out.
    split; [rewrite (get_word_tags_fetched _ _ _ _ _ Hf), Hres; reflexivity|].
    split; [exact (mention_result_timestamps search_word rows out Hres)|].
    intros e He. cbv zeta. split.
    + unfold out in He. apply in_map_iff in He.
      destruct He as ([T s] & <- & Hin). exact (Hbal T s Hin).
    + rewrite Hspec in He. apply in_map_iff in He. destruct He as (T & <- & _).
      cbn [entry_counts entry_timestamp expected_summary
           m_total m_news m_webtoon m_youtube].
      rewrite (channel_rows_no_total rows _ Hch).
      repeat split. cbn. lia.
  - intros mc r Hr Hbal. specialize (Hch r Hr).
    destruct (mention_step_balanced search_word mc r Hch Hbal)
      as (mc1 & Hstep1 & Hbal1).
    destruct (mention_step_adds search_word mc r Hch)
      as (mc2 & after & Hstep2 & Hget & Hadds & Hother).
    rewrite Hstep1 in Hstep2. injection Hstep2 as <-.
    exists mc1, after. repeat split; auto; apply Hadds.
Qed.

(** The sample returns its two buckets, 05:00 with 31 = 31 + 0 + 0 and
    04:00 with 96 = 68 + 28 + 0. *)
Lemma get_word_tags_totals_witness :
  get_word_tags Sample.env Sample.start Sample.stop "gutsi"
  = Return Sample.mentions /\
  ((exists out,
      get_word_tags Sample.env Sample.start Sample.stop "gutsi" = Return out /\
      map entry_timestamp out = first_seen (map bucket_key Sample.rows) /\
      forall e, In e out ->
        let B := filter (in_bucket_of (entry_timestamp e)) Sample.rows in
        m_total (entry_counts e)
        = m_news (entry_counts e) + m_webtoon (entry_counts e)
          + m_youtube (entry_counts e) /\
        m_total (entry_counts e) = sum_counts B /\
        m_news (entry_counts e) = sum_counts (filter (has_tag "news") B) /\
        m_webtoon (entry_counts e) = sum_counts (filter (has_tag "webtoon") B) /\
        m_youtube (entry_counts e) = sum_counts (filter (has_tag "youtube") B)) /\
   (forall mention_counts r,
      In r Sample.rows -> all_balanced mention_counts ->
      exists mention_counts' after,
        mention_step "gutsi" mention_counts r = Return mention_counts' /\
        all_balanced mention_counts' /\
        dict_get (bucket_key r) mention_counts' = Some after /\
        (let before := match dict_get (bucket_key r) mention_counts with
                       | Some s => s
                       | None => new_summary "gutsi"
                       end in
         let n := row_occurrence_count r in
         m_total after = m_total before + n /\
         m_news after
         = m_news before
           + (if String.eqb (row_content_tag r) "news" then n else 0) /\
         m_webtoon after
         = m_webtoon before
           + (if String.eqb (row_content_tag r) "webtoon" then n else 0) /\
         m_youtube after
         = m_youtube before
           + (if String.eqb (row_content_tag r) "youtube" then n else 0)) /\
        forall T, T <> bucket_key r ->
                  dict_get T mention_counts' = dict_get T mention_counts)).
Proof.
  split; [vm_compute; reflexivity|].
  apply (get_word_tags_totals Sample.env Sample.start Sample.stop "gutsi"
           Sample.rows).
  - exact sample_fetched.
  - intros r [<-|[<-|[<-|[<-|[]]]]]; reflexivity.
Defined.

(** X6.  In every entry that [get_word_tags] returns, each channel
    counter is the sum of the occurrence counts of the rows of the
    entry's bucket with that tag, and the total is the sum over all rows
    of the bucket plus, once more, the counts of its rows tagged
    "total". *)
Theorem get_word_tags_sums (env : Env) (start_time end_time search_word : string)
    (rows : list Row) (out : list MentionEntry) (e : MentionEntry) :
  fetched_rows env start_time end_time rows ->
  get_word_tags env start_time end_time search_word = Return out ->
  In e out ->
  let B := filter (in_bucket_of (entry_timestamp e)) rows in
  m_news (entry_counts e) = sum_counts (filter (has_tag "news") B) /\
  m_webtoon (entry_counts e) = sum_counts (filter (has_tag "webtoon") B) /\
  m_youtube (entry_counts e) = sum_counts (filter (has_tag "youtube") B) /\
  m_total (entry_counts e)
  = sum_counts B + sum_counts (filter (has_tag "total") B).
Proof.
  intros Hf Hr He. rewrite (get_word_tags_spec _ _ _ _ _ _ Hf Hr) in He.
  apply in_map_iff in He. destruct He as (T & <- & _).
  cbv zeta. repeat split.
Qed.

Lemma get_word_tags_sums_witness :
  let e := mkMentionEntry "2023-08-28 04:00:00"
             (mkSummary 96 68 28 0 "gutsi" [] []) in
  let B := filter (in_bucket_of (entry_timestamp e)) Sample.rows in
  m_news (entry_counts e) = sum_counts (filter (has_tag "news") B) /\
  m_webtoon (entry_counts e) = sum_counts (filter (has_tag "webtoon") B) /\
  m_youtube (entry_counts e) = sum_counts (filter (has_tag "youtube") B) /\
  m_total (entry_counts e)
  = sum_counts B + sum_counts (filter (has_tag "total") B).
Proof.
  apply (get_word_tags_sums Sample.env Sample.start Sample.stop "gutsi"
           Sample.rows Sample.mentions).
  - exact sample_fetched.
  - vm_compute. reflexivity.
  - right; left; reflexivity.
Defined.

(** X7.  In every entry that [get_word_tags] returns, the search word is
    the requested one, and the incorrect-word (correct-word) list holds
    the incorrect (correct) words of the rows of the entry's bucket that
    match the search word, each once, in the order of their first
    occurrence. *)
Theorem get_word_tags_word_lists (env : Env)
    (start_time end_time search_word : string)
    (rows : list Row) (out : list MentionEntry) (e : MentionEntry) :
  fetched_rows env start_time end_time rows ->
  get_word_tags env start_time end_time search_word = Return out ->
  In e out ->
  let M := filter (mentions_word search_word)
             (filter (in_bucket_of (entry_timestamp e)) rows) in
  m_search_word (entry_counts e) = search_word /\
  m_incorrect_word (entry_counts e) = first_seen (map row_incorrect_word M) /\
  m_correct_word (entry_counts e) = first_seen (map row_correct_word M) /\
  NoDup (m_incorrect_word (entry_counts e)) /\
  NoDup (m_correct_word (entry_counts e)) /\
  (forall w, In w (m_incorrect_word (entry_counts e)) <->
             exists r, In r M /\ row_incorrect_word r = w) /\
  (forall w, In w (m_correct_word (entry_counts e)) <->
             exists r, In r M /\ row_correct_word r = w).
Proof.
  intros Hf Hr He. rewrite (get_word_tags_spec _ _ _ _ _ _ Hf Hr) in He.
  apply in_map_iff in He. destruct He as (T & <- & _).
  cbv zeta. cbn [entry_counts entry_timestamp expected_summary
                 m_search_word m_incorrect_word m_correct_word].
  repeat split; try apply first_seen_NoDup.
  - rewrite first_seen_In, in_map_iff.
    intros (r & H1 & H2). exists r. auto.
  - rewrite first_seen_In, in_map_iff.
    intros (r & H1 & H2). exists r. auto.
  - rewrite first_seen_In, in_map_iff.
    intros (r & H1 & H2). exists r. auto.
  - rewrite first_seen_In, in_map_iff.
    intros (r & H1 & H2). exists r. auto.
Qed.

Lemma get_word_tags_word_lists_witness :
  let e := mkMentionEntry "2023-08-28 05:00:00"
             (mkSummary 31 31 0 0 "gutsi" ["gutsi"%string] ["gudi"%string]) in
  let M := filter (mentions_word "gutsi")
             (filter (in_bucket_of (entry_timestamp e)) Sample.rows) in
  m_search_word (entry_counts e) = "gutsi"%string /\
  m_incorrect_word (entry_counts e) = first_seen (map row_incorrect_word M) /\
  m_correct_word (entry_counts e) = first_seen (map row_correct_word M) /\
  NoDup (m_incorrect_word (entry_counts e)) /\
  NoDup (m_correct_word (entry_counts e)) /\
  (forall w, In w (m_incorrect_word (entry_counts e)) <->
             exists r, In r M /\ row_incorrect_word r = w) /\
  (forall w, In w (m_correct_word (entry_counts e)) <->
             exists r, In r M /\ row_correct_word r = w).
Proof.
  apply (get_word_tags_word_lists Sample.env Sample.start Sample.stop "gutsi"
           Sample.rows Sample.mentions).
  - exact sample_fetched.
  - vm_compute. reflexivity.
  - left; reflexivity.
Defined.

(** ** The faults of [get_word_tags] *)

Lemma add_to_key_outcome (content_tag : string) (n : Z) (s : Summary) :
  if is_counter content_tag
  then exists s', add_to_key content_tag n s = Return s'
  else add_to_key content_tag n s = Uncaught (fault_of content_tag).
Proof.
  unfold is_counter, is_channel, fault_of, is_text_key, add_to_key.
  destruct (String.eqb content_tag "total"); cbn [orb]; [eauto|].
  destruct (String.eqb content_tag "news"); cbn [orb]; [eauto|].
  destruct (String.eqb content_tag "webtoon"); cbn [orb]; [eauto|].
  destruct (String.eqb content_tag "youtube"); cbn [orb]; [eauto|].
  now destruct (String.eqb content_tag "search_word"
                || String.eqb content_tag "incorrect_word"
                || String.eqb content_tag "correct_word").
Qed.

Lemma mention_step_outcome (search_word : string) (mention_counts : dict Summary)
    (r : Row) :
  if is_counter (row_content_tag r)
  then exists mention_counts',
      mention_step search_word mention_counts r = Return mention_counts'
  else mention_step search_word mention_counts r
       = Uncaught (fault_of (row_content_tag r)).
Proof.
  unfold mention_step.
  match goal with
  | |- context [add_to_key ?t ?n ?s] => pose proof (add_to_key_outcome t n s) as H
  end.
  destruct (is_counter (row_content_tag r)).
  - destruct H as (s' & ->). cbn [bind]. eauto.
  - now rewrite H.
Qed.

(** The loop returns iff every tag is a counter; otherwise it stops at
    the first row whose tag is none, with the fault of that tag. *)
Lemma mention_loop_outcome (search_word : string) (rows : list Row)
    (mention_counts : dict Summary) :
  match mention_loop search_word mention_counts rows with
  | Return _ => forall r, In r rows -> is_counter (row_content_tag r) = true
  | HTTPException _ _ => False
  | Uncaught x =>
      exists before r after,
        rows = before ++ r :: after /\
        (forall y, In y before -> is_counter (row_content_tag y) = true) /\
        is_counter (row_content_tag r) = false /\
        x = fault_of (row_content_tag r)
  end.
Proof.
  revert mention_counts.
  induction rows as [|r rows IH]; intros mc; cbn [mention_loop].
  - intros r [].
  - pose proof (mention_step_outcome search_word mc r) as Hstep.
    destruct (is_counter (row_content_tag r)) eqn:Hc.
    + destruct Hstep as (mc1 & ->). cbn [bind]. specialize (IH mc1).
      destruct (mention_loop search_word mc1 rows) as [mc2|c dt|x].
      * intros y [<-|Hy]; auto.
      * exact IH.
      * destruct IH as (before & r' & after & -> & Hb & Hr' & ->).
        exists (r :: before), r', after. repeat split; auto.
        intros y [<-|Hy]; auto.
    + rewrite Hstep. cbn [bind].
      exists [], r, rows. repeat split; auto.
Qed.

Lemma fault_of_not_ConnectionError (content_tag : string) :
  fault_of content_tag <> ConnectionError.
Proof. unfold fault_of. destruct (is_text_key content_tag); discriminate. Qed.

(** X8.  The first row whose tag is none of "total", "news", "webtoon",
    "youtube" ends [get_word_tags] with an uncaught exception: a
    [TypeError] if the tag is "search_word", "incorrect_word" or
    "correct_word" (keys that hold a string or a list), a [KeyError] on
    the tag otherwise. *)
Theorem get_word_tags_first_fault (env : Env)
    (start_time end_time search_word : string)
    (rows before after : list Row) (r : Row) :
  fetched_rows env start_time end_time rows ->
  rows = before ++ r :: after ->
  (forall y, In y before -> is_counter (row_content_tag y) = true) ->
  is_counter (row_content_tag r) = false ->
  get_word_tags env start_time end_time search_word
  = Uncaught (if is_text_key (row_content_tag r) then TypeError
              else KeyError (row_content_tag r)).
Proof.
  intros Hf -> Hbefore Hr.
  rewrite (get_word_tags_fetched _ _ _ _ _ Hf). unfold mention_result.
  rewrite mention_loop_app.
  destruct (mention_loop_counters search_word before [] Hbefore) as (mc & ->).
  cbn [bind mention_loop].
  pose proof (mention_step_outcome search_word mc r) as Hstep.
  rewrite Hr in Hstep. rewrite Hstep. cbn [bind except_ConnectionError].
  unfold fault_of. now destruct (is_text_key (row_content_tag r)).
Qed.

Lemma get_word_tags_first_fault_witness :
  get_word_tags
    (mkEnv (fun _ => Sample.h05)
       (fun _ _ => FetchRows
          [ mkRow Sample.h04 "gutsi" "gudi" "news" 31 1;
            mkRow Sample.h04 "a" "b" "incorrect_word" 7 2 ]))
    Sample.start Sample.stop "gutsi"
  = Uncaught (if is_text_key "incorrect_word" then TypeError
              else KeyError "incorrect_word").
Proof.
  apply (get_word_tags_first_fault _ Sample.start Sample.stop "gutsi"
           [ mkRow Sample.h04 "gutsi" "gudi" "news" 31 1;
             mkRow Sample.h04 "a" "b" "incorrect_word" 7 2 ]
           [ mkRow Sample.h04 "gutsi" "gudi" "news" 31 1 ] []
           (mkRow Sample.h04 "a" "b" "incorrect_word" 7 2)).
  - eexists _, _. split; reflexivity.
  - reflexivity.
  - intros y [<-|[]]. reflexivity.
  - reflexivity.
Defined.

(** X9.  Once the rows are fetched, [get_word_tags] returns a result
    iff every row is tagged "total", "news", "webtoon" or "youtube". *)
Theorem get_word_tags_returns_iff (env : Env)
    (start_time end_time search_word : string) (rows : list Row) :
  fetched_rows env start_time end_time rows ->
  (exists out, get_word_tags env start_time end_time search_word = Return out)
  <-> forall r, In r rows -> is_counter (row_content_tag r) = true.
Proof.
  intros Hf. rewrite (get_word_tags_fetched _ _ _ _ _ Hf). unfold mention_result.
  pose proof (mention_loop_outcome search_word rows []) as Hloop.
  split.
  - intros (out & Hout). apply except_ConnectionError_Return in Hout.
    destruct (mention_loop search_word [] rows); cbn [bind] in Hout;
      [exact Hloop | discriminate | discriminate].
  - intros Hc. destruct (mention_loop_counters search_word rows [] Hc) as (mc & ->).
    cbn [bind except_ConnectionError]. eauto.
Qed.

Lemma get_word_tags_returns_iff_witness :
  (exists out,
     get_word_tags Sample.env Sample.start Sample.stop "gutsi" = Return out)
  <-> forall r, In r Sample.rows -> is_counter (row_content_tag r) = true.
Proof.
  apply (get_word_tags_returns_iff Sample.env Sample.start Sample.stop "gutsi"
           Sample.rows).
  exact sample_fetched.
Defined.

(** ** The answers of the handlers *)

(** Reading the two times raises nothing but a [ValueError] of the parser
    or the [OverflowError] of the subtraction. *)
Lemma time_window_outcome (env : Env) (start_time end_time : string) :
  match time_window env start_time end_time with
  | Return _ => True
  | HTTPException _ _ => False
  | Uncaught x => x = ValueError \/ x = OverflowError
  end.
Proof.
  unfold time_window.
  destruct (nonempty start_time).
  - destruct (strptime_outcome start_time) as [(t & ->)| ->]; cbn [bind]; auto.
    destruct (nonempty end_time); cbn [bind]; auto.
    destruct (strptime_outcome end_time) as [(t' & ->)| ->]; cbn [bind]; auto.
  - destruct (minus_24h_outcome (now env 0%nat)) as [(t & ->)| ->];
      cbn [bind]; auto.
    destruct (nonempty end_time); cbn [bind]; auto.
    destruct (strptime_outcome end_time) as [(t' & ->)| ->]; cbn [bind]; auto.
Qed.

(** X10.  The answers of [get_rank].  It returns the ranking of the
    fetched rows when there are some; it raises the 204 response exactly
    when the record source hands back [None] or an empty sequence, and
    the 500 response with the database detail exactly when the record
    source raises a [ConnectionError]; any other exception that escapes
    comes from reading the times or from the record source, never from
    the aggregation, and never is a [ConnectionError]. *)
Theorem get_rank_outcomes (env : Env) (start_time end_time : string)
    (tag : option string) :
  match get_rank env start_time end_time tag with
  | Return out =>
      exists rows,
        fetched_rows env start_time end_time rows /\
        rows <> [] /\ out = rank_result tag rows
  | HTTPException c d =>
      exists s e,
        time_window env start_time end_time = Return (s, e) /\
        ((c = 204 /\ d = None /\
          (fetch_word_corrections_from_db env s e = FetchNone \/
           fetch_word_corrections_from_db env s e = FetchRows [])) \/
         (c = 500 /\ d = Some database_detail /\
          fetch_word_corrections_from_db env s e = FetchRaises ConnectionError))
  | Uncaught x =>
      x <> ConnectionError /\
      (time_window env start_time end_time = Uncaught x \/
       exists s e,
         time_window env start_time end_time = Return (s, e) /\
         fetch_word_corrections_from_db env s e = FetchRaises x)
  end.
Proof.
  pose proof (get_rank_Return_inv env start_time end_time tag) as Hret.
  destruct (get_rank env start_time end_time tag) as [out|c d|x] eqn:Hg.
  - destruct (Hret out eq_refl) as (rows & ? & ? & ?). eauto.
  - clear Hret. unfold get_rank, call_fetch in Hg.
    pose proof (time_window_outcome env start_time end_time) as Hw.
    destruct (time_window env start_time end_time) as [[s e]|c' d'|x];
      [|destruct Hw|destruct Hw as [-> | ->]; discriminate].
    exists s, e. split; [reflexivity|]. cbn [bind] in Hg.
    destruct (fetch_word_corrections_from_db env s e) as [|rows|[]];
      cbn [bind except_ConnectionError] in Hg; try discriminate.
    + injection Hg as <- <-. left. auto.
    + destruct rows; [|discriminate]. injection Hg as <- <-. left. auto.
    + injection Hg as <- <-. right. auto.
  - clear Hret. unfold get_rank, call_fetch in Hg.
    pose proof (time_window_outcome env start_time end_time) as Hw.
    destruct (time_window env start_time end_time) as [[s e]|c' d'|y].
    + cbn [bind] in Hg.
      destruct (fetch_word_corrections_from_db env s e) as [|rows|y] eqn:Hf;
        cbn [bind except_ConnectionError] in Hg.
      * discriminate.
      * destruct rows; discriminate.
      * destruct y; try discriminate; injection Hg as <-;
          (split; [discriminate | right; exists s, e; auto]).
    + destruct Hw.
    + cbn [bind except_ConnectionError] in Hg.
      destruct Hw as [-> | ->]; injection Hg as <-;
        (split; [discriminate | now left]).
Qed.

(** X11.  The answers of [get_word_tags].  It returns, for rows that are
    all tagged with a counter, the summaries of the buckets; it raises
    the 204 response exactly when the record source hands back [None],
    and the 500 response with the database detail exactly when the
    record source raises a [ConnectionError]; any other exception that
    escapes comes from reading the times, from the record source, or is
    the fault of a row whose tag is no counter, and never is a
    [ConnectionError]. *)
Theorem get_word_tags_outcomes (env : Env)
    (start_time end_time search_word : string) :
  match get_word_tags env start_time end_time search_word with
  | Return out =>
      exists rows,
        fetched_rows env start_time end_time rows /\
        (forall r, In r rows -> is_counter (row_content_tag r) = true) /\
        out = map (fun T => mkMentionEntry T (expected_summary search_word rows T))
                  (first_seen (map bucket_key rows))
  | HTTPException c d =>
      exists s e,
        time_window env start_time end_time = Return (s, e) /\
        ((c = 204 /\ d = None /\
          fetch_word_corrections_from_db env s e = FetchNone) \/
         (c = 500 /\ d = Some database_detail /\
          fetch_word_corrections_from_db env s e = FetchRaises ConnectionError))
  | Uncaught x =>
      x <> ConnectionError /\
      (time_window env start_time end_time = Uncaught x \/
       (exists s e,
          time_window env start_time end_time = Return (s, e) /\
          fetch_word_corrections_from_db env s e = FetchRaises x) \/
       (exists rows r,
          fetched_rows env start_time end_time rows /\ In r rows /\
          is_counter (row_content_tag r) = false /\
          x = fault_of (row_content_tag r)))
  end.
Proof.
  pose proof (time_window_outcome env start_time end_time) as Hw.
  destruct (time_window env start_time end_time) as [[s e]|c' d'|y] eqn:Hwin.
  - destruct (fetch_word_corrections_from_db env s e) as [|rows|y] eqn:Hf.
    + unfold get_word_tags, call_fetch. rewrite Hwin. cbn [bind]. rewrite Hf.
      cbn [bind except_ConnectionError]. exists s, e. auto.
    + assert (Hfr : fetched_rows env start_time end_time rows)
        by (exists s, e; auto).
      rewrite (get_word_tags_fetched _ _ _ _ _ Hfr).
      pose proof (mention_result_spec search_word rows) as Hspec.
      pose proof (mention_loop_outcome search_word rows []) as Hloop.
      unfold mention_result in *.
      destruct (mention_loop search_word [] rows) as [mc|c dt|x];
        cbn [bind except_ConnectionError] in *.
      * exists rows. repeat split; auto.
      * destruct Hloop.
      * destruct Hloop as (before & r & after & -> & _ & Hr & ->).
        pose proof (fault_of_not_ConnectionError (row_content_tag r)) as Hne.
        destruct (fault_of (row_content_tag r)) eqn:Hfault;
          try (split; [discriminate|]; right; right;
               exists (before ++ r :: after), r;
               repeat split; auto using in_elt).
        now destruct Hne.
    + unfold get_word_tags, call_fetch. rewrite Hwin. cbn [bind]. rewrite Hf.
      destruct y; cbn [bind except_ConnectionError];
        try (split; [discriminate | right; left; exists s, e; auto]).
      exists s, e. auto.
  - destruct Hw.
  - unfold get_word_tags. rewrite Hwin. cbn [bind except_ConnectionError].
    destruct Hw as [-> | ->]; (split; [discriminate | now left]).
Qed.

(** ** Parsing what [strftime] prints *)

Section Parsing.
Local Open Scope nat_scope.

Lemma digit_value (k : nat) : nat_of_ascii (digit k) = 48 + k mod 10.
Proof.
  unfold digit. apply nat_ascii_embedding.
  pose proof (Nat.mod_upper_bound k 10). lia.
Qed.

Lemma d09_digit (k : nat) : d09 (digit k) = true.
Proof.
  unfold d09, between. rewrite digit_value.
  pose proof (Nat.mod_upper_bound k 10).
  apply andb_true_iff. split; apply Nat.leb_le; lia.
Qed.

Lemma is_space_digit (k : nat) : is_space (digit k) = false.
Proof.
  unfold is_space, between. rewrite digit_value.
  pose proof (Nat.mod_upper_bound k 10).
  apply orb_false_iff. split; apply andb_false_iff.
  - right. apply Nat.leb_gt. lia.
  - right. apply Nat.leb_gt. lia.
Qed.

Lemma four_digits (y : nat) :
  y < 10 * 1000 ->
  10 * (10 * (10 * (10 * 0 + (y / 1000) mod 10) + (y / 100) mod 10)
        + (y / 10) mod 10) + y mod 10 = y.
Proof.
  intros H.
  assert (E2 : y / 10 / 10 = y / 100) by exact (Nat.Div0.div_div y 10 10).
  assert (E3 : y / 100 / 10 = y / 1000) by exact (Nat.Div0.div_div y 100 10).
  assert (H0 : y / 1000 < 10) by (apply Nat.Div0.div_lt_upper_bound; lia).
  pose proof (Nat.div_mod_eq y 10) as H1.
  pose proof (Nat.div_mod_eq (y / 10) 10) as H2.
  pose proof (Nat.div_mod_eq (y / 100) 10) as H3.
  rewrite E2 in H2. rewrite E3 in H3.
  rewrite (Nat.mod_small (y / 1000) 10) by assumption.
  lia.
Qed.

Lemma field_Y_digits (y : nat) (rest : list ascii) :
  y < 10 * 1000 ->
  starts_with
    (field re_Y (digit (y / 1000) :: digit (y / 100) :: digit (y / 10)
                 :: digit y :: rest))
    (y, rest).
Proof.
  intros H. unfold field, re_Y. cbn [flat_map match_seq].
  rewrite !d09_digit. cbn [app]. unfold int_of. cbn [fold_left].
  rewrite !d09_digit, !digit_value.
  replace (48 + (y / 1000) mod 10 - 48) with ((y / 1000) mod 10) by lia.
  replace (48 + (y / 100) mod 10 - 48) with ((y / 100) mod 10) by lia.
  replace (48 + (y / 10) mod 10 - 48) with ((y / 10) mod 10) by lia.
  replace (48 + y mod 10 - 48) with (y mod 10) by lia.
  rewrite (four_digits y H). eexists. reflexivity.
Qed.

Lemma field_m_digits (n : nat) (rest : list ascii) :
  1 <= n <= 12 ->
  starts_with (field re_m (digit (n / 10) :: digit n :: rest)) (n, rest).
Proof.
  intros H. destruct n as [|n]; [lia|].
  do 12 (destruct n as [|n]; [eexists; reflexivity|]). lia.
Qed.

Lemma field_d_digits (n : nat) (rest : list ascii) :
  1 <= n <= 31 ->
  starts_with (field re_d (digit (n / 10) :: digit n :: rest)) (n, rest).
Proof.
  intros H. destruct n as [|n]; [lia|].
  do 31 (destruct n as [|n]; [eexists; reflexivity|]). lia.
Qed.

Lemma field_H_digits (n : nat) (rest : list ascii) :
  n < 24 ->
  starts_with (field re_H (digit (n / 10) :: digit n :: rest)) (n, rest).
Proof.
  intros H.
  do 24 (destruct n as [|n]; [eexists; reflexivity|]). lia.
Qed.

Lemma field_M_digits (n : nat) (rest : list ascii) :
  n < 60 ->
  starts_with (field re_M (digit (n / 10) :: digit n :: rest)) (n, rest).
Proof.
  intros H.
  do 60 (destruct n as [|n]; [eexists; reflexivity|]). lia.
Qed.

Lemma field_S_digits (n : nat) (rest : list ascii) :
  n < 60 ->
  starts_with (field re_S (digit (n / 10) :: digit n :: rest)) (n, rest).
Proof.
  intros H.
  do 60 (destruct n as [|n]; [eexists; reflexivity|]). lia.
Qed.

Lemma starts_with_flat_map {A B : Type} (f : A -> list B) (l : list A)
    (x : A) (y : B) :
  starts_with l x -> starts_with (f x) y -> starts_with (flat_map f l) y.
Proof.
  intros (tl & ->) (tl' & Hf). cbn [flat_map]. rewrite Hf.
  eexists. reflexivity.
Qed.

Lemma starts_with_map {A B : Type} (f : A -> B) (l : list A) (x : A) :
  starts_with l x -> starts_with (map f l) (f x).
Proof. intros (tl & ->). eexists. reflexivity. Qed.

Lemma spaces_single (c : ascii) (rest : list ascii) :
  is_space c = false -> spaces (" "%char :: c :: rest) = [c :: rest].
Proof. intros H. cbn [spaces]. rewrite H. reflexivity. Qed.

Lemma strftime_chars (t : datetime) :
  1000 <= year t ->
  list_ascii_of_string (strftime t)
  = digit (year t / 1000) :: digit (year t / 100) :: digit (year t / 10)
    :: digit (year t) :: "-"%char
    :: digit (month t / 10) :: digit (month t) :: "-"%char
    :: digit (day t / 10) :: digit (day t) :: " "%char
    :: digit (hour t / 10) :: digit (hour t) :: ":"%char
    :: digit (minute t / 10) :: digit (minute t) :: ":"%char
    :: digit (second t / 10) :: digit (second t) :: [].
Proof.
  intros Hy. unfold strftime, year_digits.
  destruct (Nat.ltb_spec (year t) 10); [lia|].
  destruct (Nat.ltb_spec (year t) 100); [lia|].
  destruct (Nat.ltb_spec (year t) 1000); [lia|].
  reflexivity.
Qed.

Lemma days_in_month_le_31 (y m : nat) : days_in_month y m <= 31.
Proof.
  unfold days_in_month.
  do 12 (destruct m as [|m]; [try destruct (is_leap y); lia|]). lia.
Qed.

Lemma format_matches_strftime (t : datetime) :
  valid_datetime t ->
  starts_with (format_matches (list_ascii_of_string (strftime t)))
              (whole_second t, []).
Proof.
  intros (Hy & Hm & Hd & HH & HM & HS).
  pose proof (days_in_month_le_31 (year t) (month t)) as Hd31.
  rewrite strftime_chars by lia. unfold format_matches, whole_second.
  eapply starts_with_flat_map; [apply field_Y_digits; lia|]. cbv beta iota.
  cbn [lit]. rewrite Ascii.eqb_refl. cbn [flat_map]. rewrite app_nil_r.
  eapply starts_with_flat_map; [apply field_m_digits; lia|]. cbv beta iota.
  cbn [lit]. rewrite Ascii.eqb_refl. cbn [flat_map]. rewrite app_nil_r.
  eapply starts_with_flat_map; [apply field_d_digits; lia|]. cbv beta iota.
  rewrite spaces_single by apply is_space_digit.
  cbn [flat_map]. rewrite app_nil_r.
  eapply starts_with_flat_map; [apply field_H_digits; lia|]. cbv beta iota.
  cbn [lit]. rewrite Ascii.eqb_refl. cbn [flat_map]. rewrite app_nil_r.
  eapply starts_with_flat_map; [apply field_M_digits; lia|]. cbv beta iota.
  cbn [lit]. rewrite Ascii.eqb_refl. cbn [flat_map]. rewrite app_nil_r.
  apply (starts_with_map
           (fun '(ss, s) =>
              (mkdatetime (year t) (month t) (day t) (hour t) (minute t) ss 0, s))
           _ (second t, [])).
  apply field_S_digits. lia.
Qed.

(** What [strftime] prints for a valid time, [strptime] reads back, to
    the second. *)
Lemma strptime_strftime (t : datetime) :
  valid_datetime t -> strptime (strftime t) = Return (whole_second t).
Proof.
  intros Hv. destruct (format_matches_strftime t Hv) as (tl & Hfm).
  destruct Hv as (Hy & Hm & Hd & HH & HM & HS).
  unfold strptime. rewrite Hfm. cbn [whole_second year month day second].
  replace (1 <=? year t) with true by (symmetry; apply Nat.leb_le; lia).
  replace (day t <=? days_in_month (year t) (month t)) with true
    by (symmetry; apply Nat.leb_le; lia).
  replace (second t <=? 59) with true by (symmetry; apply Nat.leb_le; lia).
  reflexivity.
Qed.

Lemma nonempty_strftime (t : datetime) : nonempty (strftime t) = true.
Proof.
  unfold strftime, year_digits.
  destruct (year t <? 10); [reflexivity|].
  destruct (year t <? 100); [reflexivity|].
  destruct (year t <? 1000); reflexivity.
Qed.

Lemma days_in_month_ge_28 (y m : nat) : 28 <= days_in_month y m.
Proof.
  unfold days_in_month.
  do 12 (destruct m as [|m]; [try destruct (is_leap y); lia|]). lia.
Qed.

(** A day earlier is a valid time again, from year 1001 on. *)
Lemma minus_24h_valid (t : datetime) :
  valid_datetime t -> 1001 <= year t ->
  exists t', minus_24h t = Return t' /\ valid_datetime t'.
Proof.
  intros (Hy & Hm & Hd & HH & HM & HS) Hy1. unfold minus_24h.
  destruct (Nat.ltb_spec 1 (day t)).
  - eexists. split; [reflexivity|]. unfold valid_datetime. cbn. lia.
  - destruct (Nat.ltb_spec 1 (month t)).
    + eexists. split; [reflexivity|]. unfold valid_datetime. cbn.
      pose proof (days_in_month_ge_28 (year t) (month t - 1)). lia.
    + destruct (Nat.ltb_spec 1 (year t)); [|lia].
      eexists. split; [reflexivity|]. unfold valid_datetime. cbn. lia.
Qed.
End Parsing.

(** ** The time window of a request *)

Lemma time_window_printed (env : Env) (t1 t2 : datetime) :
  valid_datetime t1 -> valid_datetime t2 ->
  time_window env (strftime t1) (strftime t2)
  = Return (whole_second t1, whole_second t2).
Proof.
  intros H1 H2. unfold time_window.
  rewrite !nonempty_strftime, !strptime_strftime by assumption. reflexivity.
Qed.

(** X12.  Times written as the endpoints print them are accepted as
    [start_time] and [end_time]: for valid times with four-digit years
    the window is the pair of these times, to the second, and the record
    source is asked for exactly that window. *)
Theorem time_window_of_printed_times (env : Env) (t1 t2 : datetime) :
  valid_datetime t1 -> valid_datetime t2 ->
  time_window env (strftime t1) (strftime t2)
  = Return (whole_second t1, whole_second t2) /\
  forall rows,
    fetched_rows env (strftime t1) (strftime t2) rows
    <-> fetch_word_corrections_from_db env (whole_second t1) (whole_second t2)
        = FetchRows rows.
Proof.
  intros H1 H2.
  pose proof (time_window_printed env t1 t2 H1 H2) as Hw.
  split; [exact Hw|]. intros rows. unfold fetched_rows. rewrite Hw. split.
  - intros (s & e & [= <- <-] & Hf). exact Hf.
  - intros Hf. eauto.
Qed.

Lemma sample_valid_h04 : valid_datetime Sample.h04.
Proof. unfold valid_datetime. cbn. lia. Defined.

Lemma sample_valid_h05 : valid_datetime Sample.h05.
Proof. unfold valid_datetime. cbn. lia. Defined.

Lemma time_window_of_printed_times_witness :
  time_window Sample.env (strftime Sample.h04) (strftime Sample.h05)
  = Return (whole_second Sample.h04, whole_second Sample.h05) /\
  forall rows,
    fetched_rows Sample.env (strftime Sample.h04) (strftime Sample.h05) rows
    <-> fetch_word_corrections_from_db Sample.env
          (whole_second Sample.h04) (whole_second Sample.h05)
        = FetchRows rows.
Proof.
  apply (time_window_of_printed_times Sample.env Sample.h04 Sample.h05).
  - exact sample_valid_h04.
  - exact sample_valid_h05.
Defined.

(** X13.  The default values of [start_time] and [end_time] are fixed
    when the module is loaded: a request that uses them asks for the 24
    hours before that moment, to the second, whatever the clock shows
    when the request is handled. *)
Theorem default_window_is_fixed (current_time : datetime) :
  valid_datetime current_time ->
  (1001 <= year current_time)%nat ->
  exists start day_before,
    start_example current_time = Return start /\
    minus_24h current_time = Return day_before /\
    forall env,
      time_window env start (end_example current_time)
      = Return (whole_second day_before, whole_second current_time).
Proof.
  intros Hv Hy.
  destruct (minus_24h_valid current_time Hv Hy) as (t' & Hm & Hv').
  exists (strftime t'), t'. unfold start_example, end_example. rewrite Hm.
  repeat split. intros env.
  apply (time_window_printed env t' current_time Hv' Hv).
Qed.

Lemma default_window_is_fixed_witness :
  exists start day_before,
    start_example Sample.h05 = Return start /\
    minus_24h Sample.h05 = Return day_before /\
    forall env,
      time_window env start (end_example Sample.h05)
      = Return (whole_second day_before, whole_second Sample.h05).
Proof.
  apply (default_window_is_fixed Sample.h05).
  - exact sample_valid_h05.
  - cbn. lia.
Defined.

(** ** The shape of the result of [get_rank] *)

(** X14.  Unless the requested tag is the string "timestamp", every
    dictionary in the result of [get_rank] has exactly two keys, in this
    order: "timestamp" with the timestamp string of a bucket that has a
    selected row, and the requested tag, or "total" without one, with a
    word list that is not empty. *)
Theorem get_rank_entry_shape (env : Env) (start_time end_time : string)
    (tag : option string) (rows : list Row) (out : list (dict value))
    (d : dict value) :
  fetched_rows env start_time end_time rows ->
  get_rank env start_time end_time tag = Return out ->
  truthy tag <> Some "timestamp"%string ->
  In d out ->
  exists T es r,
    d = [ ("timestamp"%string, VStr T);
          (match truthy tag with Some t => t | None => "total"%string end,
           VWords es) ] /\
    es <> [] /\
    In r rows /\ row_selected tag T r.
Proof.
  intros Hf Hr Hne Hd.
  destruct (get_rank_emitted _ _ _ _ _ _ _ Hf Hr Hd)
    as (T & key & ws & cd & HT & Hsel & ->).
  assert (Hc : contributes tag (T, cd) = true)
    by (unfold contributes; cbn [snd]; now rewrite Hsel).
  apply (contributes_iff tag rows T cd HT) in Hc. destruct Hc as (r & Hin & Hrs).
  pose proof (selected_words_complete _ _ _ _ _ _ _ HT Hsel Hin Hrs) as Hw.
  exists T, (top_words (sort_by_count_desc ws)), r.
  split; [|split; [|split; assumption]].
  - pose proof (selected_words_key _ _ _ _ Hsel) as Hkey.
    assert (Hk : key <> "timestamp"%string).
    { destruct (truthy tag) as [t|]; destruct Hkey as [-> _];
        [|discriminate]. intros ->. now apply Hne. }
    unfold timestamp_data_of. cbn [dict_set].
    destruct (String.eqb_spec key "timestamp"); [contradiction|].
    destruct (truthy tag) as [t|]; destruct Hkey as [-> _]; reflexivity.
  - apply top_words_nonempty, sort_by_count_desc_nonempty.
    intros ->. destruct Hw.
Qed.

Lemma get_rank_entry_shape_witness :
  exists T es r,
    Sample.total_05
    = [ ("timestamp"%string, VStr T);
        (match truthy None with Some t => t | None => "total"%string end,
         VWords es) ] /\
    es <> [] /\
    In r Sample.rows /\ row_selected None T r.
Proof.
  apply (get_rank_entry_shape Sample.env Sample.start Sample.stop None
           Sample.rows [Sample.total_04; Sample.total_05] Sample.total_05).
  - exact sample_fetched.
  - reflexivity.
  - discriminate.
  - right; left; reflexivity.
Defined.

(** ** The two endpoints on the same rows *)

Lemma strictly_sorted_NoDup (l : list string) :
  StronglySorted str_lt l -> NoDup l.
Proof.
  induction 1 as [|a l Hs IH Ha]; constructor; [|exact IH].
  intros Hin. rewrite Forall_forall in Ha.
  destruct (Ha _ Hin) as [_ Hne]. now apply Hne.
Qed.

(** The timestamps of the mention summary. *)
Lemma get_word_tags_first_seen_order_aux (env : Env)
    (start_time end_time search_word : string)
    (rows : list Row) (out : list MentionEntry) :
  fetched_rows env start_time end_time rows ->
  get_word_tags env start_time end_time search_word = Return out ->
  map entry_timestamp out = first_seen (map bucket_key rows) /\
  NoDup (map entry_timestamp out) /\
  (forall T, In T (map entry_timestamp out) <->
             exists r, In r rows /\ bucket_key r = T).
Proof.
  intros Hf Hr. rewrite (get_word_tags_fetched _ _ _ _ _ Hf) in Hr.
  apply except_ConnectionError_Return, mention_result_timestamps in Hr.
  rewrite Hr. split; [reflexivity|]. split; [apply first_seen_NoDup|].
  intros T. rewrite first_seen_In, in_map_iff.
  split; intros (r & H1 & H2); exists r; auto.
Qed.

(** X15.  On the same fetched rows, the ranking without a tag and the
    mention summary report the same buckets, each once: the timestamps
    of the one result are a permutation of the timestamps of the other
    (ascending in the ranking, in first-seen order in the summary). *)
Theorem endpoints_same_buckets (env : Env)
    (start_time end_time search_word : string) (rows : list Row)
    (ranking : list (dict value)) (summary : list MentionEntry) :
  fetched_rows env start_time end_time rows ->
  get_rank env start_time end_time None = Return ranking ->
  get_word_tags env start_time end_time search_word = Return summary ->
  Permutation (map (dict_get "timestamp") ranking)
              (map (fun e => Some (VStr (entry_timestamp e))) summary).
Proof.
  intros Hf Hrank Hsum.
  destruct (get_rank_Return _ _ _ _ _ _ Hf Hrank) as [_ ->].
  unfold rank_result. rewrite collect_entries_timestamps by discriminate.
  rewrite <- (map_map fst (fun T => Some (VStr T))).
  destruct (contributing_buckets_spec None rows) as [Hs Hin]. cbv zeta in Hs, Hin.
  destruct (get_word_tags_first_seen_order_aux _ _ _ _ _ _ Hf Hsum)
    as (Heq & Hnd & Hin').
  rewrite <- (map_map entry_timestamp (fun T => Some (VStr T))).
  apply Permutation_map, NoDup_Permutation.
  - now apply strictly_sorted_NoDup.
  - exact Hnd.
  - intros T. rewrite Hin, Hin'. unfold row_selected.
    split; intros (r & H1 & H2); exists r.
    + split; [assumption | apply H2].
    + repeat split; auto. discriminate.
Qed.

Lemma endpoints_same_buckets_witness :
  Permutation
    (map (dict_get "timestamp") [Sample.total_04; Sample.total_05])
    (map (fun e => Some (VStr (entry_timestamp e))) Sample.mentions).
Proof.
  apply (endpoints_same_buckets Sample.env Sample.start Sample.stop "gutsi"
           Sample.rows).
  - exact sample_fetched.
  - reflexivity.
  - vm_compute. reflexivity.
Defined.

(** ** The order within a list of [get_rank] *)

(** X16.  In every list emitted by [get_rank], for any tag, the
    occurrence counts descend (not strictly), and words with the same
    count stand in the order they had among the selected words of the
    bucket; with a requested tag these are the words of the bucket's
    rows of that tag in the order the rows were fetched. *)
Theorem get_rank_counts_descend (env : Env) (start_time end_time : string)
    (tag : option string) (rows : list Row) (out : list (dict value))
    (d : dict value) (k : string) (es : list Word) :
  fetched_rows env start_time end_time rows ->
  get_rank env start_time end_time tag = Return out ->
  In d out ->
  dict_get k d = Some (VWords es) ->
  StronglySorted count_desc es /\
  exists T key ws,
    emitted_from tag rows T key ws d /\
    (forall c, subseq (filter (fun w => occurrence_count w =? c) es)
                      (filter (fun w => occurrence_count w =? c) ws)) /\
    (forall t, truthy tag = Some t ->
               ws = map word_of (filter (in_bucket T t) rows)).
Proof.
  intros Hf Hr Hd Hk.
  destruct (get_rank_emitted _ _ _ _ _ _ _ Hf Hr Hd) as (T & key & ws & Hem).
  pose proof Hem as (cd & HT & Hsel & ->).
  apply timestamp_data_words in Hk. subst es.
  destruct (top_words_descending_stable ws) as [Hs Hst].
  split; [exact Hs|]. exists T, key, ws. split; [exact Hem|].
  split; [exact Hst|].
  intros t Ht. apply selected_words_key in Hsel. rewrite Ht in Hsel.
  destruct Hsel as [_ Hg].
  pose proof (grouped_words _ _ (group_records_grouped rows) T t) as Hws.
  unfold words_at in Hws. now rewrite HT, Hg in Hws.
Qed.

Lemma get_rank_counts_descend_witness :
  StronglySorted count_desc [Sample.w_gomgomhi; Sample.w_ilburo] /\
  exists T key ws,
    emitted_from (Some "news"%string) Sample.rows T key ws Sample.news_04 /\
    (forall c,
       subseq (filter (fun w => occurrence_count w =? c)
                 [Sample.w_gomgomhi; Sample.w_ilburo])
              (filter (fun w => occurrence_count w =? c) ws)) /\
    (forall t, truthy (Some "news"%string) = Some t ->
               ws = map word_of (filter (in_bucket T t) Sample.rows)).
Proof.
  apply (get_rank_counts_descend Sample.env Sample.start Sample.stop
           (Some "news"%string) Sample.rows
           [Sample.news_04;
            [("timestamp"%string, VStr "2023-08-28 05:00:00"%string);
             ("news"%string, VWords [Sample.w_gutsi])]]
           Sample.news_04 "news"%string).
  - exact sample_fetched.
  - reflexivity.
  - left; reflexivity.
  - reflexivity.
Defined.
